(** * Paper Trading Service: order execution and position accounting

    A shallow embedding of [src/main.py] (a FastAPI service that simulates
    a brokerage account) together with the properties its specification
    states about it.

    Conventions of the embedding:

    - Python [float] values are read in two ways.  In the main development
      they are exact rationals ([Q]): numeric comparison ([==], [<], [>=])
      is comparison of rationals, so rounding, NaN and infinities are
      outside that reading.  It is used for what rounding cannot change:
      the control flow around the arithmetic, what is and what is not
      written, the shape of the stored data, a stored number stated as the
      value of the expression that computes it, and signs.  Module
      [Binary64] repeats the order path ([apply_slippage] and
      [place_order]) with floats as IEEE 754 binary64 numbers: every
      operation is rounded as Python rounds it and every comparison is the
      one Python makes (false on NaN).  Whatever depends on the outcome of
      a comparison between computed numbers, or on an identity of exact
      arithmetic that rounding breaks, is stated there.  Division by zero,
      which raises [ZeroDivisionError] in Python, is modelled explicitly in
      both readings.
    - The JSON file [paper_accounts.json] is a finite map from user id to
      account record.  [load_accounts] reads it, [save_accounts] replaces
      it; a handler that returns or raises before [save_accounts] leaves
      it as it was.
    - [get_current_price] (a network call with retries that returns [0.0]
      when no price could be fetched) is a parameter of the development,
      and so is the clock read by [datetime.utcnow().isoformat()]. *)

From Stdlib Require Import QArith Qround Qabs Lqa ZArith.
From Stdlib Require Import PrimFloat SpecFloat FloatOps.
From stdpp Require Import base option list strings pretty gmap.

Open Scope Q_scope.

(** A decimal literal of type [float] stands for the nearest binary64
    number, as it does in Python. *)
Set Warnings "-inexact-float".

(** ** Trading configuration *)

Definition SLIPPAGE_PERCENT : Q := 0.1.
Definition COMMISSION_PER_TRADE : Q := 0.
Definition STARTING_CASH : Q := 100000.

(** ** Models *)

(** [class Order(BaseModel)]: the request body.  [type] and [side] are
    unconstrained strings and [quantity] an unconstrained number. *)
Record Order := mkOrder {
  order_ticker : string;
  order_type : string;
  order_side : string;
  order_quantity : Q;
  order_limitPrice : option Q
}.

(** [class OrderResponse(BaseModel)]. *)
Record OrderResponse := mkOrderResponse {
  resp_orderId : string;
  resp_status : string;
  resp_filledPrice : option Q;
  resp_filledQuantity : option Q;
  resp_message : string
}.

(** A position dictionary.  The last four keys are only present after
    [calculate_account_metrics] has run on it. *)
Record Position := mkPosition {
  pos_ticker : string;
  pos_quantity : Q;
  pos_avgCostBasis : Q;
  pos_currentPrice : option Q;
  pos_marketValue : option Q;
  pos_unrealizedPL : option Q;
  pos_unrealizedPLPercent : option Q
}.

(** The dictionary appended to [account['orders']] by [place_order]. *)
Record OrderRecord := mkOrderRecord {
  rec_orderId : string;
  rec_ticker : string;
  rec_type : string;
  rec_side : string;
  rec_quantity : Q;
  rec_filledPrice : Q;
  rec_filledQuantity : Q;
  rec_status : string;
  rec_timestamp : string
}.

(** An account dictionary.  The three totals are only present after
    [calculate_account_metrics] has run on it. *)
Record Account := mkAccount {
  acct_userId : string;
  acct_cash : Q;
  acct_positions : list Position;
  acct_orders : list OrderRecord;
  acct_totalValue : option Q;
  acct_totalPL : option Q;
  acct_totalPLPercent : option Q;
  acct_createdAt : string
}.

(** The content of the accounts file. *)
Abbreviation Accounts := (gmap string Account).

(** Exceptions a handler can end with. *)
Inductive Exn :=
  | HTTPException (status_code : nat) (detail : string)
  | ZeroDivisionError
  | ValueError.

(** ** Control flow of a handler

    A step of [place_order] either falls through with a value, returns a
    response early, or raises. *)
Inductive exec (A : Type) :=
  | Continue (a : A)
  | Return (r : OrderResponse)
  | Raise (e : Exn).
Arguments Continue {A} a.
Arguments Return {A} r.
Arguments Raise {A} e.

#[global] Instance exec_bind : MBind exec := fun A B k m =>
  match m with
  | Continue a => k a
  | Return r => Return r
  | Raise e => Raise e
  end.

(** ** Numeric helpers *)

Definition Qltb (x y : Q) : bool := negb (Qle_bool y x).

(** Rounding to the nearest integer, ties to even, as [format] does. *)
Definition round_half_even (x : Q) : Z :=
  let f := Qfloor x in
  match Qcompare (x - inject_Z f) (1 # 2) with
  | Lt => f
  | Gt => (f + 1)%Z
  | Eq => if Z.even f then f else (f + 1)%Z
  end.

Definition two_digits (n : Z) : string :=
  ((if (n <? 10)%Z then "0" else "") +:+ pretty n)%string.

(** [f"{x:.2f}"]. *)
Definition format_2f (x : Q) : string :=
  let n := round_half_even (Qabs x * 100) in
  ((if Qltb x 0 then "-" else "") +:+ pretty (n / 100)%Z +:+ "."
     +:+ two_digits (n mod 100)%Z)%string.

(** ** Helper functions of the service *)

(** [apply_slippage(price, side)]. *)
Definition apply_slippage (price : Q) (side : string) : Q :=
  let slippage := price * (SLIPPAGE_PERCENT / 100) in
  if String.eqb side "buy" then price + slippage else price - slippage.

(** [verify_token]: the mock always resolves to the same user. *)
Definition verify_token : string := "user_1".

(** The account written by [get_account] on first access and by
    [reset_account]. *)
Definition fresh_account (user_id now : string) : Account :=
  {| acct_userId := user_id;
     acct_cash := STARTING_CASH;
     acct_positions := [];
     acct_orders := [];
     acct_totalValue := None;
     acct_totalPL := None;
     acct_totalPLPercent := None;
     acct_createdAt := now |}.

(** An early [return OrderResponse(orderId="", status="rejected", ...)]. *)
Definition rejected (msg : string) : OrderResponse :=
  {| resp_orderId := "";
     resp_status := "rejected";
     resp_filledPrice := None;
     resp_filledQuantity := None;
     resp_message := msg |}.

(** [for pos in positions: if pos['ticker'] == ticker: ...; break]: the
    index and content of the first position of that ticker. *)
Definition find_position (ticker : string) (positions : list Position)
  : option (nat * Position) :=
  list_find (fun pos => pos_ticker pos = ticker) positions.

(** Equality of two optional numbers, as Python compares dictionary
    values: both absent, or both present and numerically equal. *)
Definition opt_Qeqb (a b : option Q) : bool :=
  match a, b with
  | None, None => true
  | Some x, Some y => Qeq_bool x y
  | _, _ => false
  end.

(** [==] on two position dictionaries. *)
Definition position_eqb (p q : Position) : bool :=
  String.eqb (pos_ticker p) (pos_ticker q)
  && Qeq_bool (pos_quantity p) (pos_quantity q)
  && Qeq_bool (pos_avgCostBasis p) (pos_avgCostBasis q)
  && opt_Qeqb (pos_currentPrice p) (pos_currentPrice q)
  && opt_Qeqb (pos_marketValue p) (pos_marketValue q)
  && opt_Qeqb (pos_unrealizedPL p) (pos_unrealizedPL q)
  && opt_Qeqb (pos_unrealizedPLPercent p) (pos_unrealizedPLPercent q).

(** [positions.remove(x)]: drops the first element equal to [x];
    [None] stands for the [ValueError] raised when there is none. *)
Fixpoint list_remove (x : Position) (positions : list Position)
  : option (list Position) :=
  match positions with
  | [] => None
  | y :: rest =>
      if position_eqb y x then Some rest
      else cons y <$> list_remove x rest
  end.

(** The in-place updates of a position dictionary. *)
Definition set_quantity_avgCostBasis (quantity avgCostBasis : Q)
    (pos : Position) : Position :=
  {| pos_ticker := pos_ticker pos;
     pos_quantity := quantity;
     pos_avgCostBasis := avgCostBasis;
     pos_currentPrice := pos_currentPrice pos;
     pos_marketValue := pos_marketValue pos;
     pos_unrealizedPL := pos_unrealizedPL pos;
     pos_unrealizedPLPercent := pos_unrealizedPLPercent pos |}.

Definition set_quantity (quantity : Q) (pos : Position) : Position :=
  set_quantity_avgCostBasis quantity (pos_avgCostBasis pos) pos.

(** The dictionary appended for a ticker bought for the first time. *)
Definition new_position (ticker : string) (quantity avgCostBasis : Q)
  : Position :=
  {| pos_ticker := ticker;
     pos_quantity := quantity;
     pos_avgCostBasis := avgCostBasis;
     pos_currentPrice := None;
     pos_marketValue := None;
     pos_unrealizedPL := None;
     pos_unrealizedPLPercent := None |}.

(** The in-place updates of an account dictionary. *)
Definition set_cash_positions (cash : Q) (positions : list Position)
    (account : Account) : Account :=
  {| acct_userId := acct_userId account;
     acct_cash := cash;
     acct_positions := positions;
     acct_orders := acct_orders account;
     acct_totalValue := acct_totalValue account;
     acct_totalPL := acct_totalPL account;
     acct_totalPLPercent := acct_totalPLPercent account;
     acct_createdAt := acct_createdAt account |}.

Definition append_order (record : OrderRecord) (account : Account)
  : Account :=
  {| acct_userId := acct_userId account;
     acct_cash := acct_cash account;
     acct_positions := acct_positions account;
     acct_orders := acct_orders account ++ [record];
     acct_totalValue := acct_totalValue account;
     acct_totalPL := acct_totalPL account;
     acct_totalPLPercent := acct_totalPLPercent account;
     acct_createdAt := acct_createdAt account |}.

(** ** [place_order] *)

(** "Determine execution price" (the [if order.type == "market"] block). *)
Definition determine_execution_price (order : Order) (market_price : Q)
  : exec Q :=
  if String.eqb (order_type order) "market" then
    Continue (apply_slippage market_price (order_side order))
  else
    match order_limitPrice order with
    | None => Return (rejected "Limit price required for limit orders")
    | Some limitPrice =>
        if String.eqb (order_side order) "buy"
           && Qle_bool market_price limitPrice then
          Continue limitPrice
        else if String.eqb (order_side order) "sell"
                && Qle_bool limitPrice market_price then
          Continue limitPrice
        else
          Return (rejected "Limit price not favorable for immediate execution")
    end.

(** The [if order.side == "buy"] branch of "Execute order". *)
Definition execute_buy (order : Order) (execution_price : Q)
    (account : Account) : exec Account :=
  let total_cost :=
    order_quantity order * execution_price + COMMISSION_PER_TRADE in
  if Qltb (acct_cash account) total_cost then
    Return (rejected "Insufficient funds")
  else
    let cash := acct_cash account - total_cost in
    match find_position (order_ticker order) (acct_positions account) with
    | Some (i, existing_position) =>
        let total_quantity :=
          pos_quantity existing_position + order_quantity order in
        let total_cost_basis :=
          pos_quantity existing_position * pos_avgCostBasis existing_position
          + order_quantity order * execution_price in
        if Qeq_bool total_quantity 0 then Raise ZeroDivisionError
        else
          Continue
            (set_cash_positions cash
               (<[i := set_quantity_avgCostBasis total_quantity
                         (total_cost_basis / total_quantity)
                         existing_position]> (acct_positions account))
               account)
    | None =>
        Continue
          (set_cash_positions cash
             (acct_positions account
                ++ [new_position (order_ticker order) (order_quantity order)
                      execution_price])
             account)
    end.

(** The [else:  # sell] branch of "Execute order". *)
Definition execute_sell (order : Order) (execution_price : Q)
    (account : Account) : exec Account :=
  match find_position (order_ticker order) (acct_positions account) with
  | None => Return (rejected "No position to sell")
  | Some (i, position) =>
      if Qltb (pos_quantity position) (order_quantity order) then
        Return (rejected "Insufficient shares")
      else
        let proceeds :=
          order_quantity order * execution_price - COMMISSION_PER_TRADE in
        let cash := acct_cash account + proceeds in
        let position' :=
          set_quantity (pos_quantity position - order_quantity order)
            position in
        let positions := <[i := position']> (acct_positions account) in
        if Qeq_bool (pos_quantity position') 0 then
          match list_remove position' positions with
          | Some positions' =>
              Continue (set_cash_positions cash positions' account)
          | None => Raise ValueError
          end
        else Continue (set_cash_positions cash positions account)
  end.

(** [f"order_{len(account['orders']) + 1}"]. *)
Definition next_order_id (account : Account) : string :=
  ("order_" +:+ pretty (length (acct_orders account) + 1)%nat)%string.

(** "Record order" and the final response. *)
Definition record_order (now : string) (order : Order)
    (execution_price : Q) (account : Account) : Account * OrderResponse :=
  let order_id := next_order_id account in
  (append_order
     {| rec_orderId := order_id;
        rec_ticker := order_ticker order;
        rec_type := order_type order;
        rec_side := order_side order;
        rec_quantity := order_quantity order;
        rec_filledPrice := execution_price;
        rec_filledQuantity := order_quantity order;
        rec_status := "filled";
        rec_timestamp := now |}
     account,
   {| resp_orderId := order_id;
      resp_status := "filled";
      resp_filledPrice := Some execution_price;
      resp_filledQuantity := Some (order_quantity order);
      resp_message :=
        ("Order filled at $" +:+ format_2f execution_price)%string |}).

Section Service.

(** The price source: [get_current_price ticker] is the last close, or
    [0] after three failed attempts. *)
Variable get_current_price : string -> Q.

(** The body of [place_order] once the account has been looked up:
    everything up to, not including, [save_accounts]. *)
Definition place_order_on (now : string) (order : Order)
    (account : Account) : exec (Account * OrderResponse) :=
  let market_price := get_current_price (order_ticker order) in
  if Qeq_bool market_price 0 then
    Return (rejected
              ("Unable to fetch price for " +:+ order_ticker order)%string)
  else
    execution_price ← determine_execution_price order market_price;
    account' ← (if String.eqb (order_side order) "buy"
                then execute_buy order execution_price account
                else execute_sell order execution_price account);
    Continue (record_order now order execution_price account').

(** [POST /api/paper/order].  The result is the accounts file after the
    call and either the response or the exception that ended it. *)
Definition place_order (now : string) (order : Order)
    (accounts : Accounts) : Accounts * (OrderResponse + Exn) :=
  let user_id := verify_token in
  match accounts !! user_id with
  | None => (accounts, inr (HTTPException 404 "Account not found"))
  | Some account =>
      match place_order_on now order account with
      | Continue (account', response) =>
          (<[user_id := account']> accounts, inl response)
      | Return response => (accounts, inl response)
      | Raise e => (accounts, inr e)
      end
  end.

(** ** [calculate_account_metrics] *)

(** The body of the loop over positions: the valued position and its
    market value. *)
Definition value_position (position : Position) : Position * Q :=
  let current_price := get_current_price (pos_ticker position) in
  let market_value := pos_quantity position * current_price in
  let cost_basis := pos_quantity position * pos_avgCostBasis position in
  let unrealized_pl := market_value - cost_basis in
  ({| pos_ticker := pos_ticker position;
      pos_quantity := pos_quantity position;
      pos_avgCostBasis := pos_avgCostBasis position;
      pos_currentPrice := Some current_price;
      pos_marketValue := Some market_value;
      pos_unrealizedPL := Some unrealized_pl;
      pos_unrealizedPLPercent :=
        Some (if Qltb 0 cost_basis
              then unrealized_pl / cost_basis * 100 else 0) |},
   market_value).

(** The loop: [total_market_value] is threaded through. *)
Fixpoint value_positions (positions : list Position)
    (total_market_value : Q) : list Position * Q :=
  match positions with
  | [] => ([], total_market_value)
  | position :: rest =>
      let '(position', market_value) := value_position position in
      let '(rest', total) :=
        value_positions rest (total_market_value + market_value) in
      (position' :: rest', total)
  end.

Definition calculate_account_metrics (account : Account) : Account :=
  let initial_value := STARTING_CASH in
  let '(positions, total_market_value) :=
    value_positions (acct_positions account) (acct_cash account) in
  let totalPL := total_market_value - initial_value in
  {| acct_userId := acct_userId account;
     acct_cash := acct_cash account;
     acct_positions := positions;
     acct_orders := acct_orders account;
     acct_totalValue := Some total_market_value;
     acct_totalPL := Some totalPL;
     acct_totalPLPercent :=
       Some (if Qltb 0 initial_value
             then totalPL / initial_value * 100 else 0);
     acct_createdAt := acct_createdAt account |}.

(** [GET /api/paper/account]: the accounts file after the call and the
    account returned.  The metrics are computed on the loaded copy and
    are not saved. *)
Definition get_account (now : string) (accounts : Accounts)
    : Accounts * Account :=
  let user_id := verify_token in
  let '(accounts', account) :=
    match accounts !! user_id with
    | None =>
        let account := fresh_account user_id now in
        (<[user_id := account]> accounts, account)
    | Some account => (accounts, account)
    end in
  (accounts', calculate_account_metrics account).

End Service.

(** [POST /api/paper/reset]. *)
Definition reset_account (now : string) (accounts : Accounts) : Accounts :=
  let user_id := verify_token in
  <[user_id := fresh_account user_id now]> accounts.

(** [GET /api/paper/orders]. *)
Definition get_orders (accounts : Accounts) : list OrderRecord :=
  let user_id := verify_token in
  match accounts !! user_id with
  | None => []
  | Some account => acct_orders account
  end.

(** ** Vocabulary of the properties *)

(** The messages of the six early returns of [place_order]. *)
Definition rejection_messages (order : Order) : list string :=
  [ ("Unable to fetch price for " +:+ order_ticker order)%string;
    "Limit price required for limit orders"%string;
    "Limit price not favorable for immediate execution"%string;
    "Insufficient funds"%string;
    "No position to sell"%string;
    "Insufficient shares"%string ].

(** A rejection: one of the six early returns. *)
Definition is_rejection (order : Order) (r : OrderResponse) : Prop :=
  exists msg, r = rejected msg /\ msg ∈ rejection_messages order.

(** Every record of an order history is a filled order. *)
Definition all_filled (orders : list OrderRecord) : Prop :=
  Forall (fun record => rec_status record = "filled"%string) orders.

(** The sum of a list of numbers. *)
Definition Qsum (l : list Q) : Q := foldr Qplus 0 l.

(** What [calculate_account_metrics] writes into one position. *)
Definition valued_as (get_current_price : string -> Q)
    (position valued : Position) : Prop :=
  let currentPrice := get_current_price (pos_ticker position) in
  let marketValue := pos_quantity position * currentPrice in
  let costBasis := pos_quantity position * pos_avgCostBasis position in
  let unrealizedPL := marketValue - costBasis in
  pos_ticker valued = pos_ticker position /\
  pos_quantity valued = pos_quantity position /\
  pos_avgCostBasis valued = pos_avgCostBasis position /\
  pos_currentPrice valued = Some currentPrice /\
  pos_marketValue valued = Some marketValue /\
  pos_unrealizedPL valued = Some unrealizedPL /\
  exists percent,
    pos_unrealizedPLPercent valued = Some percent /\
    (0 < costBasis -> percent = unrealizedPL / costBasis * 100) /\
    (costBasis <= 0 -> percent = 0).

(** ** Sample data

    The worked example of the specification: a fresh account, a price
    source that quotes 50 or 60 for every ticker, and orders on ["XYZ"].
    Numbers are written with the denominators the computation produces
    ([50.050] is [50050 # 1000]), so that the sample states are literally
    the ones [place_order] computes. *)

Definition quote_50 : string -> Q := fun _ => 50.
Definition quote_60 : string -> Q := fun _ => 60.

Definition sample_account : Account :=
  fresh_account "user_1" "2024-01-01T00:00:00".

Definition sample_accounts : Accounts :=
  {[ "user_1"%string := sample_account ]}.

Definition market_buy (quantity : Q) : Order :=
  mkOrder "XYZ" "market" "buy" quantity None.

Definition market_sell (quantity : Q) : Order :=
  mkOrder "XYZ" "market" "sell" quantity None.

Definition limit_buy (quantity limitPrice : Q) : Order :=
  mkOrder "XYZ" "limit" "buy" quantity (Some limitPrice).

Definition limit_sell (quantity limitPrice : Q) : Order :=
  mkOrder "XYZ" "limit" "sell" quantity (Some limitPrice).

(** The sample account after ["order_1"], a market buy of 10 at 50. *)
Definition sample_holding : Account :=
  {| acct_userId := "user_1";
     acct_cash := 99499.500;
     acct_positions := [new_position "XYZ" 10 50.050];
     acct_orders :=
       [ {| rec_orderId := "order_1";
            rec_ticker := "XYZ";
            rec_type := "market";
            rec_side := "buy";
            rec_quantity := 10;
            rec_filledPrice := 50.050;
            rec_filledQuantity := 10;
            rec_status := "filled";
            rec_timestamp := "2024-01-02T00:00:00" |} ];
     acct_totalValue := None;
     acct_totalPL := None;
     acct_totalPLPercent := None;
     acct_createdAt := "2024-01-01T00:00:00" |}.

Definition sample_holdings : Accounts :=
  {[ "user_1"%string := sample_holding ]}.

(** The sample account after ["order_2"], a market sell of the 10 shares
    at 60. *)
Definition sample_sold : Account :=
  {| acct_userId := "user_1";
     acct_cash := 100098.900000;
     acct_positions := [];
     acct_orders :=
       acct_orders sample_holding ++
       [ {| rec_orderId := "order_2";
            rec_ticker := "XYZ";
            rec_type := "market";
            rec_side := "sell";
            rec_quantity := 10;
            rec_filledPrice := 59.940;
            rec_filledQuantity := 10;
            rec_status := "filled";
            rec_timestamp := "2024-01-03T00:00:00" |} ];
     acct_totalValue := None;
     acct_totalPL := None;
     acct_totalPLPercent := None;
     acct_createdAt := "2024-01-01T00:00:00" |}.

Definition sample_sold_response : OrderResponse :=
  {| resp_orderId := "order_2";
     resp_status := "filled";
     resp_filledPrice := Some 59.940;
     resp_filledQuantity := Some 10;
     resp_message := "Order filled at $59.94" |}.

(** The sample account after a market buy of -1 share at 50: it holds a
    quantity of -1 at an average cost of 50.05. *)
Definition sample_short : Account :=
  {| acct_userId := "user_1";
     acct_cash := 100050.050;
     acct_positions := [new_position "XYZ" (-1) 50.050];
     acct_orders :=
       [ {| rec_orderId := "order_1";
            rec_ticker := "XYZ";
            rec_type := "market";
            rec_side := "buy";
            rec_quantity := -1;
            rec_filledPrice := 50.050;
            rec_filledQuantity := -1;
            rec_status := "filled";
            rec_timestamp := "2024-01-02T00:00:00" |} ];
     acct_totalValue := None;
     acct_totalPL := None;
     acct_totalPLPercent := None;
     acct_createdAt := "2024-01-01T00:00:00" |}.

(** ** The price source

    [get_current_price] talks to the market-data service.  What the
    service answers is the input of the model: for every ticker and every
    attempt, what the two calls of [stock.history] give. *)

Module PriceFeed.

(** One call of [stock.history(period=...)]: it raises, or it gives a data
    frame, of which the [Close] column is kept (empty when the frame is
    empty).  An exception of [yf.Ticker] itself counts as one of the first
    call. *)
Inductive History :=
  | HistoryRaises
  | HistoryCloses (closes : list Q).

(** The answers to the calls of one attempt. *)
Record Attempt := mkAttempt {
  history_1d : History;
  history_5d : History
}.

(** What the function does besides returning: the [print] of the
    [except] branch and [time.sleep(1)]. *)
Inductive Event :=
  | Printed (attempt : nat)
  | Slept.

(** How the [try] block of one attempt ends. *)
Inductive AttemptResult :=
  | Fetched (price : Q)
  | NoData
  | Failed.

Definition max_retries : nat := 3.

(** The [try] block: today's data first, then the last five days. *)
Definition try_attempt (a : Attempt) : AttemptResult :=
  match history_1d a with
  | HistoryRaises => Failed
  | HistoryCloses closes =>
      match last closes with
      | Some close => Fetched close
      | None =>
          match history_5d a with
          | HistoryRaises => Failed
          | HistoryCloses closes5 =>
              match last closes5 with
              | Some close => Fetched close
              | None => NoData
              end
          end
      end
  end.

(** [for attempt in range(max_retries)], from [attempt] on, with
    [remaining] iterations left; the [return 0.0] after the loop is the
    case of no iteration left. *)
Fixpoint attempts_from (feed : nat -> Attempt) (attempt remaining : nat)
  : Q * list Event :=
  match remaining with
  | O => (0, [])
  | S remaining' =>
      match try_attempt (feed attempt) with
      | Fetched price => (price, [])
      | NoData =>
          if (attempt <? max_retries - 1)%nat then
            let '(price, events) :=
              attempts_from feed (S attempt) remaining' in
            (price, Slept :: events)
          else (0, [])
      | Failed =>
          if (attempt <? max_retries - 1)%nat then
            let '(price, events) :=
              attempts_from feed (S attempt) remaining' in
            (price, Printed attempt :: Slept :: events)
          else (0, [Printed attempt])
      end
  end.

(** [get_current_price(ticker)]: the price and what happened on the
    way. *)
Definition get_current_price (feed : string -> nat -> Attempt)
    (ticker : string) : Q * list Event :=
  attempts_from (feed ticker) 0 max_retries.

(** The number of [time.sleep(1)] in a run. *)
Fixpoint sleeps (events : list Event) : nat :=
  match events with
  | [] => 0
  | Slept :: rest => S (sleeps rest)
  | Printed _ :: rest => sleeps rest
  end.

(** A feed that has no data for today at the first attempt, fails at the
    second and gives five days of closes at the third. *)
Definition sample_feed (ticker : string) (attempt : nat) : Attempt :=
  match attempt with
  | 0%nat => mkAttempt (HistoryCloses []) (HistoryCloses [])
  | 1%nat => mkAttempt HistoryRaises (HistoryCloses [48; 49])
  | _ => mkAttempt (HistoryCloses []) (HistoryCloses [47; 48; 50])
  end.

(** A feed that is down. *)
Definition dead_feed (ticker : string) (attempt : nat) : Attempt :=
  mkAttempt HistoryRaises HistoryRaises.

End PriceFeed.

(** ** Vocabulary of the ledger properties *)

(** What was paid for a position. *)
Definition cost_basis (position : Position) : Q :=
  pos_quantity position * pos_avgCostBasis position.

(** The [k]-th record of a history carries the id ["order_<k>"]. *)
Definition well_numbered (orders : list OrderRecord) : Prop :=
  forall i record,
    orders !! i = Some record ->
    rec_orderId record = ("order_" +:+ pretty (i + 1)%nat)%string.

(** Every position has a positive quantity and a positive average cost. *)
Definition positive_positions (positions : list Position) : Prop :=
  Forall (fun position =>
            0 < pos_quantity position /\ 0 < pos_avgCostBasis position)
    positions.

(** The same order with another side. *)
Definition with_side (side : string) (order : Order) : Order :=
  {| order_ticker := order_ticker order;
     order_type := order_type order;
     order_side := side;
     order_quantity := order_quantity order;
     order_limitPrice := order_limitPrice order |}.

(** * The order path in double precision

    [apply_slippage] and [place_order] once more, with every Python
    [float] an IEEE 754 binary64 number: [+], [-], [*] and [/] round to
    the nearest double, [<], [<=] and [==] are the comparisons of doubles
    (false as soon as one side is NaN, and [0.0 == -0.0]), and a division
    by a divisor that compares equal to zero raises [ZeroDivisionError].
    The numbers of a request and of the accounts file are floats, as
    pydantic and [json] produce them.  Control flow, records and names are
    those of the definitions above. *)

Module Binary64.

#[local] Open Scope float_scope.

(** ** Trading configuration *)

Definition SLIPPAGE_PERCENT : float := 0.1.
Definition COMMISSION_PER_TRADE : float := 0.0.
Definition STARTING_CASH : float := 100000.0.

(** ** Models *)

Record Order := mkOrder {
  order_ticker : string;
  order_type : string;
  order_side : string;
  order_quantity : float;
  order_limitPrice : option float
}.

Record OrderResponse := mkOrderResponse {
  resp_orderId : string;
  resp_status : string;
  resp_filledPrice : option float;
  resp_filledQuantity : option float;
  resp_message : string
}.

Record Position := mkPosition {
  pos_ticker : string;
  pos_quantity : float;
  pos_avgCostBasis : float;
  pos_currentPrice : option float;
  pos_marketValue : option float;
  pos_unrealizedPL : option float;
  pos_unrealizedPLPercent : option float
}.

Record OrderRecord := mkOrderRecord {
  rec_orderId : string;
  rec_ticker : string;
  rec_type : string;
  rec_side : string;
  rec_quantity : float;
  rec_filledPrice : float;
  rec_filledQuantity : float;
  rec_status : string;
  rec_timestamp : string
}.

Record Account := mkAccount {
  acct_userId : string;
  acct_cash : float;
  acct_positions : list Position;
  acct_orders : list OrderRecord;
  acct_totalValue : option float;
  acct_totalPL : option float;
  acct_totalPLPercent : option float;
  acct_createdAt : string
}.

Abbreviation Accounts := (gmap string Account).

(** ** Control flow of a handler *)

Inductive exec (A : Type) :=
  | Continue (a : A)
  | Return (r : OrderResponse)
  | Raise (e : Exn).
Arguments Continue {A} a.
Arguments Return {A} r.
Arguments Raise {A} e.

#[global] Instance exec_bind : MBind exec := fun A B k m =>
  match m with
  | Continue a => k a
  | Return r => Return r
  | Raise e => Raise e
  end.

(** ** Helper functions of the service *)

(** [f"{x:.2f}"]: the exact value of the double, rounded to two decimals
    with ties to even; ["nan"] and ["inf"] for the special values. *)
Definition format_2f (x : float) : string :=
  match Prim2SF x with
  | S754_nan => "nan"
  | S754_infinity s => if s then "-inf" else "inf"
  | S754_zero s => if s then "-0.00" else "0.00"
  | S754_finite s m e =>
      let n := round_half_even (inject_Z (Z.pos m) * 2 ^ e * 100)%Q in
      ((if s then "-" else "") +:+ pretty (n / 100)%Z +:+ "."
         +:+ two_digits (n mod 100)%Z)%string
  end.

(** [apply_slippage(price, side)]. *)
Definition apply_slippage (price : float) (side : string) : float :=
  let slippage := price * (SLIPPAGE_PERCENT / 100) in
  if String.eqb side "buy" then price + slippage else price - slippage.

(** The account written by [get_account] on first access and by
    [reset_account]. *)
Definition fresh_account (user_id now : string) : Account :=
  {| acct_userId := user_id;
     acct_cash := STARTING_CASH;
     acct_positions := [];
     acct_orders := [];
     acct_totalValue := None;
     acct_totalPL := None;
     acct_totalPLPercent := None;
     acct_createdAt := now |}.

(** An early [return OrderResponse(orderId="", status="rejected", ...)]. *)
Definition rejected (msg : string) : OrderResponse :=
  {| resp_orderId := "";
     resp_status := "rejected";
     resp_filledPrice := None;
     resp_filledQuantity := None;
     resp_message := msg |}.

(** [for pos in positions: if pos['ticker'] == ticker: ...; break]. *)
Definition find_position (ticker : string) (positions : list Position)
  : option (nat * Position) :=
  list_find (fun pos => pos_ticker pos = ticker) positions.

(** Equality of two optional numbers, as Python compares dictionary
    values that are distinct objects: both absent, or both present and
    equal as doubles. *)
Definition opt_eqb (a b : option float) : bool :=
  match a, b with
  | None, None => true
  | Some x, Some y => x =? y
  | _, _ => false
  end.

(** [==] on two position dictionaries that are distinct objects. *)
Definition position_eqb (p q : Position) : bool :=
  String.eqb (pos_ticker p) (pos_ticker q)
  && (pos_quantity p =? pos_quantity q)
  && (pos_avgCostBasis p =? pos_avgCostBasis q)
  && opt_eqb (pos_currentPrice p) (pos_currentPrice q)
  && opt_eqb (pos_marketValue p) (pos_marketValue q)
  && opt_eqb (pos_unrealizedPL p) (pos_unrealizedPL q)
  && opt_eqb (pos_unrealizedPLPercent p) (pos_unrealizedPLPercent q).

(** [positions.remove(x)], where [x] is the object stored at index [i] of
    the list: it drops the first element that is [x] itself or compares
    equal to it; [None] stands for the [ValueError] raised when there is
    none.  (With doubles an object need not compare equal to itself, a
    NaN does not, so that the identity test of [list.remove] matters.) *)
Fixpoint list_remove (i : nat) (x : Position) (positions : list Position)
  : option (list Position) :=
  match positions with
  | [] => None
  | y :: rest =>
      if bool_decide (i = 0%nat) || position_eqb y x then Some rest
      else cons y <$> list_remove (pred i) x rest
  end.

(** The in-place updates of a position dictionary. *)
Definition set_quantity_avgCostBasis (quantity avgCostBasis : float)
    (pos : Position) : Position :=
  {| pos_ticker := pos_ticker pos;
     pos_quantity := quantity;
     pos_avgCostBasis := avgCostBasis;
     pos_currentPrice := pos_currentPrice pos;
     pos_marketValue := pos_marketValue pos;
     pos_unrealizedPL := pos_unrealizedPL pos;
     pos_unrealizedPLPercent := pos_unrealizedPLPercent pos |}.

Definition set_quantity (quantity : float) (pos : Position) : Position :=
  set_quantity_avgCostBasis quantity (pos_avgCostBasis pos) pos.

(** The dictionary appended for a ticker bought for the first time. *)
Definition new_position (ticker : string) (quantity avgCostBasis : float)
  : Position :=
  {| pos_ticker := ticker;
     pos_quantity := quantity;
     pos_avgCostBasis := avgCostBasis;
     pos_currentPrice := None;
     pos_marketValue := None;
     pos_unrealizedPL := None;
     pos_unrealizedPLPercent := None |}.

(** The in-place updates of an account dictionary. *)
Definition set_cash_positions (cash : float) (positions : list Position)
    (account : Account) : Account :=
  {| acct_userId := acct_userId account;
     acct_cash := cash;
     acct_positions := positions;
     acct_orders := acct_orders account;
     acct_totalValue := acct_totalValue account;
     acct_totalPL := acct_totalPL account;
     acct_totalPLPercent := acct_totalPLPercent account;
     acct_createdAt := acct_createdAt account |}.

Definition append_order (record : OrderRecord) (account : Account)
  : Account :=
  {| acct_userId := acct_userId account;
     acct_cash := acct_cash account;
     acct_positions := acct_positions account;
     acct_orders := acct_orders account ++ [record];
     acct_totalValue := acct_totalValue account;
     acct_totalPL := acct_totalPL account;
     acct_totalPLPercent := acct_totalPLPercent account;
     acct_createdAt := acct_createdAt account |}.

(** ** [place_order] *)

(** "Determine execution price" (the [if order.type == "market"] block). *)
Definition determine_execution_price (order : Order) (market_price : float)
  : exec float :=
  if String.eqb (order_type order) "market" then
    Continue (apply_slippage market_price (order_side order))
  else
    match order_limitPrice order with
    | None => Return (rejected "Limit price required for limit orders")
    | Some limitPrice =>
        if String.eqb (order_side order) "buy"
           && (market_price <=? limitPrice) then
          Continue limitPrice
        else if String.eqb (order_side order) "sell"
                && (limitPrice <=? market_price) then
          Continue limitPrice
        else
          Return (rejected "Limit price not favorable for immediate execution")
    end.

(** The [if order.side == "buy"] branch of "Execute order". *)
Definition execute_buy (order : Order) (execution_price : float)
    (account : Account) : exec Account :=
  let total_cost :=
    order_quantity order * execution_price + COMMISSION_PER_TRADE in
  if acct_cash account <? total_cost then
    Return (rejected "Insufficient funds")
  else
    let cash := acct_cash account - total_cost in
    match find_position (order_ticker order) (acct_positions account) with
    | Some (i, existing_position) =>
        let total_quantity :=
          pos_quantity existing_position + order_quantity order in
        let total_cost_basis :=
          pos_quantity existing_position * pos_avgCostBasis existing_position
          + order_quantity order * execution_price in
        if total_quantity =? 0 then Raise ZeroDivisionError
        else
          Continue
            (set_cash_positions cash
               (<[i := set_quantity_avgCostBasis total_quantity
                         (total_cost_basis / total_quantity)
                         existing_position]> (acct_positions account))
               account)
    | None =>
        Continue
          (set_cash_positions cash
             (acct_positions account
                ++ [new_position (order_ticker order) (order_quantity order)
                      execution_price])
             account)
    end.

(** The [else:  # sell] branch of "Execute order". *)
Definition execute_sell (order : Order) (execution_price : float)
    (account : Account) : exec Account :=
  match find_position (order_ticker order) (acct_positions account) with
  | None => Return (rejected "No position to sell")
  | Some (i, position) =>
      if pos_quantity position <? order_quantity order then
        Return (rejected "Insufficient shares")
      else
        let proceeds :=
          order_quantity order * execution_price - COMMISSION_PER_TRADE in
        let cash := acct_cash account + proceeds in
        let position' :=
          set_quantity (pos_quantity position - order_quantity order)
            position in
        let positions := <[i := position']> (acct_positions account) in
        if pos_quantity position' =? 0 then
          match list_remove i position' positions with
          | Some positions' =>
              Continue (set_cash_positions cash positions' account)
          | None => Raise ValueError
          end
        else Continue (set_cash_positions cash positions account)
  end.

(** [f"order_{len(account['orders']) + 1}"]. *)
Definition next_order_id (account : Account) : string :=
  ("order_" +:+ pretty (length (acct_orders account) + 1)%nat)%string.

(** "Record order" and the final response. *)
Definition record_order (now : string) (order : Order)
    (execution_price : float) (account : Account) : Account * OrderResponse :=
  let order_id := next_order_id account in
  (append_order
     {| rec_orderId := order_id;
        rec_ticker := order_ticker order;
        rec_type := order_type order;
        rec_side := order_side order;
        rec_quantity := order_quantity order;
        rec_filledPrice := execution_price;
        rec_filledQuantity := order_quantity order;
        rec_status := "filled";
        rec_timestamp := now |}
     account,
   {| resp_orderId := order_id;
      resp_status := "filled";
      resp_filledPrice := Some execution_price;
      resp_filledQuantity := Some (order_quantity order);
      resp_message :=
        ("Order filled at $" +:+ format_2f execution_price)%string |}).

(** The body of [place_order] once the account has been looked up:
    everything up to, not including, [save_accounts]. *)
Definition place_order_on (get_current_price : string -> float)
    (now : string) (order : Order) (account : Account)
  : exec (Account * OrderResponse) :=
  let market_price := get_current_price (order_ticker order) in
  if market_price =? 0 then
    Return (rejected
              ("Unable to fetch price for " +:+ order_ticker order)%string)
  else
    execution_price ← determine_execution_price order market_price;
    account' ← (if String.eqb (order_side order) "buy"
                then execute_buy order execution_price account
                else execute_sell order execution_price account);
    Continue (record_order now order execution_price account').

(** [POST /api/paper/order]. *)
Definition place_order (get_current_price : string -> float)
    (now : string) (order : Order) (accounts : Accounts)
  : Accounts * (OrderResponse + Exn) :=
  let user_id := verify_token in
  match accounts !! user_id with
  | None => (accounts, inr (HTTPException 404 "Account not found"))
  | Some account =>
      match place_order_on get_current_price now order account with
      | Continue (account', response) =>
          (<[user_id := account']> accounts, inl response)
      | Return response => (accounts, inl response)
      | Raise e => (accounts, inr e)
      end
  end.

(** ** Sequences of orders

    A call of [place_order] in a sequence of calls on one account: the
    price the price source returns for the ticker of the order at that
    moment, the clock read by that call, and the order. *)
Record Call := mkCall {
  call_market_price : float;
  call_now : string;
  call_order : Order
}.

(** The calls one after the other, each on the account the previous one
    left; the run goes on as long as the calls are filled. *)
Fixpoint place_orders (calls : list Call) (account : Account)
  : exec (Account * list OrderResponse) :=
  match calls with
  | [] => Continue (account, [])
  | call :: rest =>
      step ← place_order_on (fun _ => call_market_price call)
                (call_now call) (call_order call) account;
      run ← place_orders rest step.1;
      Continue (run.1, step.2 :: run.2)
  end.

(** A buy on [ticker]. *)
Definition buy_on (ticker : string) (call : Call) : Prop :=
  order_side (call_order call) = "buy"%string /\
  order_ticker (call_order call) = ticker.

(** The fill reported by a response: filled quantity and filled price. *)
Definition fill (response : OrderResponse) : float * float :=
  (default 0 (resp_filledQuantity response),
   default 0 (resp_filledPrice response)).

(** The quantity and the average cost basis stored for a ticker. *)
Definition held (ticker : string) (account : Account)
  : option (float * float) :=
  match find_position ticker (acct_positions account) with
  | Some (_, position) =>
      Some (pos_quantity position, pos_avgCostBasis position)
  | None => None
  end.

(** What the specification calls [newQty] and [newAvgCost]: how one fill
    changes the quantity and the average cost basis of its ticker.  A
    ticker that is not held gets the quantity and the price of the
    fill. *)
Definition average_update (held : option (float * float))
    (fill : float * float) : option (float * float) :=
  match held with
  | Some (oldQty, oldAvgCost) =>
      Some (oldQty + fill.1,
            (oldQty * oldAvgCost + fill.1 * fill.2) / (oldQty + fill.1))
  | None => Some fill
  end.

(** ** Sample data *)

(** A price source that quotes the same price for every ticker. *)
Definition quote (price : float) : string -> float := fun _ => price.

(** The account of ["user_1"] with a given cash and given positions, and
    the accounts file that holds it. *)
Definition account_with (cash : float) (positions : list Position)
  : Account :=
  set_cash_positions cash positions
    (fresh_account "user_1" "2024-01-01T00:00:00").

Definition accounts_with (cash : float) (positions : list Position)
  : Accounts :=
  {[ "user_1"%string := account_with cash positions ]}.

Definition market_buy (quantity : float) : Order :=
  mkOrder "XYZ" "market" "buy" quantity None.

Definition market_sell (quantity : float) : Order :=
  mkOrder "XYZ" "market" "sell" quantity None.

Definition limit_buy (quantity limitPrice : float) : Order :=
  mkOrder "XYZ" "limit" "buy" quantity (Some limitPrice).

Definition limit_sell (quantity limitPrice : float) : Order :=
  mkOrder "XYZ" "limit" "sell" quantity (Some limitPrice).

(** Three limit buys against a market price of 1: 1 share at 1, 1 share
    at 100 and 10 shares at 10. *)
Definition sample_calls : list Call :=
  [ mkCall 1 "2024-01-02T00:00:00" (limit_buy 1 1);
    mkCall 1 "2024-01-03T00:00:00" (limit_buy 1 100);
    mkCall 1 "2024-01-04T00:00:00" (limit_buy 10 10) ].

End Binary64.

(** * Properties *)

(** ** Comparisons *)

Lemma Qltb_lt (x y : Q) : Qltb x y = true <-> x < y.
Proof.
  unfold Qltb. rewrite negb_true_iff, <- not_true_iff_false, Qle_bool_iff.
  split; [apply Qnot_le_lt | apply Qlt_not_le].
Qed.

Lemma Qltb_ge (x y : Q) : Qltb x y = false <-> y <= x.
Proof.
  unfold Qltb. rewrite negb_false_iff. apply Qle_bool_iff.
Qed.

Lemma Qeq_bool_false (x y : Q) : Qeq_bool x y = false <-> ~ x == y.
Proof.
  rewrite <- not_true_iff_false, Qeq_bool_iff. reflexivity.
Qed.

(** ** Shape of the outcomes of [place_order] *)

Section Outcomes.

Variable get_current_price : string -> Q.

(** A call falls through to "Record order" exactly when a price was
    fetched, an execution price was determined and the execution branch
    did not return or raise. *)
Lemma place_order_on_Continue now order account account' response :
  place_order_on get_current_price now order account
    = Continue (account', response) <->
  ~ get_current_price (order_ticker order) == 0 /\
  exists execution_price account1,
    determine_execution_price order
      (get_current_price (order_ticker order)) = Continue execution_price /\
    (if String.eqb (order_side order) "buy"
     then execute_buy order execution_price account
     else execute_sell order execution_price account) = Continue account1 /\
    record_order now order execution_price account1 = (account', response).
Proof.
  unfold place_order_on. cbv zeta.
  destruct (Qeq_bool _ 0) eqn:Hp.
  { apply Qeq_bool_iff in Hp. split; [discriminate | tauto]. }
  apply Qeq_bool_false in Hp.
  split.
  - intros H.
    destruct (determine_execution_price _ _) as [p| |] eqn:Hd;
      cbn in H; try discriminate H.
    destruct (if String.eqb _ _ then _ else _) as [a1| |] eqn:He;
      cbn in H; try discriminate H.
    injection H as <- <-. split; [exact Hp|]. exists p, a1. auto.
  - intros (_ & p & a1 & -> & He & Hr). cbn. rewrite He. cbn.
    rewrite Hr. reflexivity.
Qed.

(** Closes [is_rejection order (rejected msg)] for a literal message. *)
Ltac solve_rejection :=
  eexists; split; [reflexivity|]; unfold rejection_messages; set_solver.

(** Every early return is one of the six rejections. *)
Lemma determine_execution_price_Return order market_price r :
  determine_execution_price order market_price = Return r ->
  is_rejection order r.
Proof.
  unfold determine_execution_price. intros H.
  repeat match type of H with
         | (if ?b then _ else _) = _ => destruct b
         | match ?o with Some _ => _ | None => _ end = _ => destruct o
         end; try discriminate H; injection H as <-; solve_rejection.
Qed.

Lemma execute_buy_Return order p account r :
  execute_buy order p account = Return r -> is_rejection order r.
Proof.
  unfold execute_buy. intros H.
  destruct (Qltb _ _).
  { injection H as <-. solve_rejection. }
  destruct (find_position _ _) as [[i e]|]; [|discriminate].
  destruct (Qeq_bool _ _); discriminate.
Qed.

Lemma execute_sell_Return order p account r :
  execute_sell order p account = Return r -> is_rejection order r.
Proof.
  unfold execute_sell. intros H.
  destruct (find_position _ _) as [[i e]|].
  2: { injection H as <-. solve_rejection. }
  destruct (Qltb _ _).
  { injection H as <-. solve_rejection. }
  destruct (Qeq_bool _ _); [|discriminate].
  destruct (list_remove _ _); discriminate.
Qed.

Lemma place_order_on_Return now order account r :
  place_order_on get_current_price now order account = Return r ->
  is_rejection order r.
Proof.
  unfold place_order_on. cbv zeta.
  destruct (Qeq_bool _ 0).
  { intros [= <-]. solve_rejection. }
  destruct (determine_execution_price _ _) as [p| |] eqn:Hd; cbn;
    [|intros [= <-]; eauto using determine_execution_price_Return
     |discriminate].
  destruct (String.eqb _ _).
  - destruct (execute_buy _ _ _) eqn:Hb; cbn; try discriminate.
    intros [= <-]. eauto using execute_buy_Return.
  - destruct (execute_sell _ _ _) eqn:Hs; cbn; try discriminate.
    intros [= <-]. eauto using execute_sell_Return.
Qed.

Lemma is_rejection_status order r :
  is_rejection order r -> resp_status r = "rejected"%string.
Proof. intros (msg & -> & _). reflexivity. Qed.

(** A fall-through carries status ["filled"]. *)
Lemma place_order_on_filled now order account account' response :
  place_order_on get_current_price now order account
    = Continue (account', response) ->
  resp_status response = "filled"%string.
Proof.
  intros (_ & p & a1 & _ & _ & [= _ <-])%place_order_on_Continue.
  reflexivity.
Qed.

(** The route either answers from an early return, leaving the file
    alone, or saves the account it fell through with. *)
Lemma place_order_response now order accounts accounts' response :
  place_order get_current_price now order accounts
    = (accounts', inl response) ->
  exists account, accounts !! verify_token = Some account /\
    ((place_order_on get_current_price now order account = Return response
      /\ accounts' = accounts) \/
     (exists account',
        place_order_on get_current_price now order account
          = Continue (account', response)
        /\ accounts' = <[verify_token := account']> accounts)).
Proof.
  unfold place_order. cbv zeta. intros H.
  destruct (accounts !! verify_token) as [account|]; [|discriminate H]. exists account. split; [reflexivity|].
  destruct (place_order_on _ _ _ _) as [[a' r]|r|e];
    [right|left|discriminate H]; injection H as <- <-; eauto.
Qed.

End Outcomes.

(** ** The position ledger *)

Lemma opt_Qeqb_refl (a : option Q) : opt_Qeqb a a = true.
Proof. destruct a; [apply Qeq_bool_iff; reflexivity | reflexivity]. Qed.

Lemma position_eqb_refl (p : Position) : position_eqb p p = true.
Proof.
  unfold position_eqb.
  rewrite String.eqb_refl, !opt_Qeqb_refl.
  rewrite !(proj2 (Qeq_bool_iff _ _)) by reflexivity. reflexivity.
Qed.

Lemma position_eqb_ticker (p q : Position) :
  pos_ticker p <> pos_ticker q -> position_eqb p q = false.
Proof.
  intros H%String.eqb_neq. unfold position_eqb. rewrite H. reflexivity.
Qed.

(** [find_position] returns the first entry of the ticker. *)
Lemma find_position_Some ticker positions i pos :
  find_position ticker positions = Some (i, pos) <->
  positions !! i = Some pos /\ pos_ticker pos = ticker /\
  forall j other, positions !! j = Some other -> (j < i)%nat ->
                  pos_ticker other <> ticker.
Proof. unfold find_position. rewrite list_find_Some. reflexivity. Qed.

Lemma find_position_None ticker positions :
  find_position ticker positions = None <->
  Forall (fun pos => pos_ticker pos <> ticker) positions.
Proof. unfold find_position. rewrite list_find_None. reflexivity. Qed.

(** Removing the entry just written at the index found by
    [find_position] never raises and deletes exactly that index. *)
Lemma list_remove_found ticker positions i pos pos' :
  find_position ticker positions = Some (i, pos) ->
  pos_ticker pos' = ticker ->
  list_remove pos' (<[i := pos']> positions) = Some (delete i positions).
Proof.
  intros Hfind Ht. revert i Hfind.
  induction positions as [|y rest IH]; intros i Hfind.
  { discriminate Hfind. }
  unfold find_position in Hfind. cbn in Hfind.
  destruct (decide (pos_ticker y = ticker)) as [Hy|Hy].
  - injection Hfind as <- <-. cbn. rewrite position_eqb_refl. reflexivity.
  - destruct (list_find _ rest) as [[j z]|] eqn:Hrest; [|discriminate Hfind].
    injection Hfind as <- <-.
    change (list_remove pos' (y :: <[j := pos']> rest)
            = Some (y :: delete j rest)).
    cbn [list_remove]. rewrite position_eqb_ticker by congruence.
    rewrite (IH j) by exact Hrest. reflexivity.
Qed.

(** What a buy that falls through has done to the account. *)
Lemma execute_buy_Continue order p account account1 :
  execute_buy order p account = Continue account1 ->
  order_quantity order * p + COMMISSION_PER_TRADE <= acct_cash account /\
  acct_cash account1
    = acct_cash account - (order_quantity order * p + COMMISSION_PER_TRADE) /\
  acct_orders account1 = acct_orders account /\
  match find_position (order_ticker order) (acct_positions account) with
  | Some (i, existing) =>
      ~ pos_quantity existing + order_quantity order == 0 /\
      acct_positions account1 =
        <[i := set_quantity_avgCostBasis
                 (pos_quantity existing + order_quantity order)
                 ((pos_quantity existing * pos_avgCostBasis existing
                   + order_quantity order * p)
                  / (pos_quantity existing + order_quantity order))
                 existing]> (acct_positions account)
  | None =>
      acct_positions account1 =
        acct_positions account
          ++ [new_position (order_ticker order) (order_quantity order) p]
  end.
Proof.
  unfold execute_buy. cbv zeta.
  destruct (Qltb _ _) eqn:Hcash; [discriminate|].
  apply Qltb_ge in Hcash.
  destruct (find_position _ _) as [[i existing]|].
  - destruct (Qeq_bool _ 0) eqn:Hz; [discriminate|].
    apply Qeq_bool_false in Hz. intros [= <-]. cbn. auto.
  - intros [= <-]. cbn. auto.
Qed.

(** What a sell that falls through has done to the account. *)
Lemma execute_sell_Continue order p account account1 :
  execute_sell order p account = Continue account1 ->
  exists i position,
    find_position (order_ticker order) (acct_positions account)
      = Some (i, position) /\
    order_quantity order <= pos_quantity position /\
    acct_cash account1
      = acct_cash account
        + (order_quantity order * p - COMMISSION_PER_TRADE) /\
    acct_orders account1 = acct_orders account /\
    acct_positions account1 =
      if Qeq_bool (pos_quantity position - order_quantity order) 0
      then delete i (acct_positions account)
      else <[i := set_quantity
                    (pos_quantity position - order_quantity order)
                    position]> (acct_positions account).
Proof.
  unfold execute_sell. cbv zeta.
  destruct (find_position _ _) as [[i position]|] eqn:Hfind; [|discriminate].
  destruct (Qltb _ _) eqn:Hq; [discriminate|].
  apply Qltb_ge in Hq. cbn [pos_quantity set_quantity set_quantity_avgCostBasis].
  intros H. exists i, position. split; [reflexivity|]. split; [exact Hq|].
  destruct (Qeq_bool _ 0).
  - erewrite list_remove_found in H by (exact Hfind || (cbn; eapply find_position_Some; exact Hfind)).
    injection H as <-. cbn. auto.
  - injection H as <-. cbn. auto.
Qed.

(** A sell only raises or returns where the code says so: with a position
    of sufficient quantity it always falls through. *)
Lemma execute_sell_total order p account i position :
  find_position (order_ticker order) (acct_positions account)
    = Some (i, position) ->
  order_quantity order <= pos_quantity position ->
  exists account1, execute_sell order p account = Continue account1.
Proof.
  intros Hfind Hq. unfold execute_sell. rewrite Hfind.
  rewrite (proj2 (Qltb_ge _ _)) by exact Hq. cbv zeta.
  destruct (Qeq_bool _ 0); [|eauto].
  erewrite list_remove_found; [eauto|exact Hfind|].
  cbn. eapply find_position_Some; exact Hfind.
Qed.

(** A buy falls through as soon as the cash covers it and the division of
    the cost-basis update is defined. *)
Lemma execute_buy_total order p account :
  order_quantity order * p + COMMISSION_PER_TRADE <= acct_cash account ->
  (forall i existing,
     find_position (order_ticker order) (acct_positions account)
       = Some (i, existing) ->
     ~ pos_quantity existing + order_quantity order == 0) ->
  exists account1, execute_buy order p account = Continue account1.
Proof.
  intros Hcash Hdiv. unfold execute_buy. cbv zeta.
  rewrite (proj2 (Qltb_ge _ _)) by exact Hcash.
  destruct (find_position _ _) as [[i existing]|]; [|eauto].
  rewrite (proj2 (Qeq_bool_false _ _)) by (eapply Hdiv; reflexivity).
  eauto.
Qed.

Lemma record_order_account now order p account1 account' response :
  record_order now order p account1 = (account', response) ->
  acct_cash account' = acct_cash account1 /\
  acct_positions account' = acct_positions account1 /\
  (exists record, acct_orders account' = acct_orders account1 ++ [record] /\
     rec_status record = "filled"%string /\
     rec_orderId record = resp_orderId response /\
     rec_quantity record = order_quantity order /\
     rec_filledPrice record = p) /\
  resp_status response = "filled"%string /\
  resp_filledPrice response = Some p /\
  resp_filledQuantity response = Some (order_quantity order).
Proof.
  intros [= <- <-]. cbn. repeat split; eauto 10.
Qed.

(** A call that falls through saves the account. *)
Lemma place_order_saves get_current_price now order (accounts : Accounts)
    account account' response :
  accounts !! verify_token = Some account ->
  place_order_on get_current_price now order account
    = Continue (account', response) ->
  place_order get_current_price now order accounts
    = (<[verify_token := account']> accounts, inl response).
Proof.
  intros Hacc Hon. unfold place_order. cbv zeta. rewrite Hacc, Hon.
  reflexivity.
Qed.

(** ** Rejections and the order history *)

Section Transactions.

Variable get_current_price : string -> Q.

Lemma place_order_on_orders now order account account' response :
  place_order_on get_current_price now order account
    = Continue (account', response) ->
  exists record,
    acct_orders account' = acct_orders account ++ [record] /\
    rec_status record = "filled"%string.
Proof.
  intros (_ & p & a1 & _ & Hexec & Hrec)%place_order_on_Continue.
  apply record_order_account in Hrec
    as (_ & _ & (record & Horders & Hstatus & _) & _).
  exists record. split; [|exact Hstatus]. rewrite Horders. f_equal.
  destruct (String.eqb _ _).
  - apply execute_buy_Continue in Hexec. tauto.
  - apply execute_sell_Continue in Hexec as (i & pos & H). tauto.
Qed.

(** C6.  Whenever [place_order] answers with status ["rejected"] -- and
    it does so with one of the six messages: price unavailable, limit
    price missing, limit not favorable, insufficient funds, no position,
    insufficient shares -- the accounts file, hence the cash, positions
    and order history of the account, is exactly what it was before the
    call; and an order history that holds only filled orders still holds
    only filled orders after any call. *)
Theorem place_order_rejected_no_mutation now order accounts accounts'
    response :
  place_order get_current_price now order accounts
    = (accounts', inl response) ->
  (resp_status response = "rejected"%string ->
   accounts' = accounts /\ is_rejection order response) /\
  (all_filled (get_orders accounts) ->
   all_filled (get_orders accounts')).
Proof.
  intros (account & Hacc & [[Hret ->] | (account' & Hcont & ->)])
    %place_order_response.
  - split; [|tauto]. intros _. split; [reflexivity|].
    eapply place_order_on_Return, Hret.
  - split.
    + intros Hrej. apply place_order_on_filled in Hcont.
      rewrite Hcont in Hrej. discriminate Hrej.
    + unfold get_orders. cbv zeta. rewrite Hacc, lookup_insert_eq.
      apply place_order_on_orders in Hcont as (record & -> & Hfilled).
      intros Hall. apply Forall_app. split; [exact Hall|].
      constructor; [exact Hfilled|constructor].
Qed.

(** An exception ends the call before [save_accounts]. *)
Lemma place_order_raise_no_mutation now order accounts accounts' e :
  place_order get_current_price now order accounts = (accounts', inr e) ->
  accounts' = accounts.
Proof.
  unfold place_order. cbv zeta. intros H.
  destruct (accounts !! verify_token) as [account|];
    [|injection H as <- _; reflexivity].
  destruct (place_order_on _ _ _ _) as [[a' r]|r|e'];
    [discriminate H|discriminate H|injection H as <- _; reflexivity].
Qed.

(** ** Cash conservation *)

(** C2.  For every filled order the account saved by [place_order] has
    cash equal to the cash before minus [quantity * executionPrice +
    commission] for a buy, and to the cash before plus [quantity *
    executionPrice - commission] for a sell, where [executionPrice] is
    the filled price of the response.  The sell half is not vacuous: a
    sell for which an execution price is determined, of a ticker that is
    held with at least the requested quantity, is filled at that price and
    the proceeds are credited. *)
Theorem filled_order_cash now order accounts account :
  accounts !! verify_token = Some account ->
  (forall accounts' response,
     place_order get_current_price now order accounts
       = (accounts', inl response) ->
     resp_status response = "filled"%string ->
     exists account' executionPrice,
       accounts' !! verify_token = Some account' /\
       resp_filledPrice response = Some executionPrice /\
       (order_side order = "buy"%string ->
        acct_cash account'
          = acct_cash account
            - (order_quantity order * executionPrice
               + COMMISSION_PER_TRADE)) /\
       (order_side order = "sell"%string ->
        acct_cash account'
          = acct_cash account
            + (order_quantity order * executionPrice
               - COMMISSION_PER_TRADE))) /\
  (forall executionPrice i position,
     order_side order = "sell"%string ->
     ~ get_current_price (order_ticker order) == 0 ->
     determine_execution_price order
       (get_current_price (order_ticker order)) = Continue executionPrice ->
     find_position (order_ticker order) (acct_positions account)
       = Some (i, position) ->
     order_quantity order <= pos_quantity position ->
     exists account' response,
       place_order get_current_price now order accounts
         = (<[verify_token := account']> accounts, inl response) /\
       resp_status response = "filled"%string /\
       resp_filledPrice response = Some executionPrice /\
       acct_cash account'
         = acct_cash account
           + (order_quantity order * executionPrice
              - COMMISSION_PER_TRADE)).
Proof.
  intros Hacc. split.
  - intros accounts' response Hplace Hfilled.
    apply place_order_response in Hplace
      as (account0 & Hacc0 & [[Hret ->] | (account' & Hcont & ->)]).
    { apply place_order_on_Return, is_rejection_status in Hret.
      rewrite Hret in Hfilled. discriminate Hfilled. }
    assert (account0 = account) as -> by congruence.
    apply place_order_on_Continue in Hcont
      as (_ & p & a1 & _ & Hexec & Hrec).
    apply record_order_account in Hrec
      as (Hcash & _ & _ & _ & Hprice & _).
    exists account', p. rewrite lookup_insert_eq.
    split; [reflexivity|]. split; [exact Hprice|]. rewrite Hcash.
    split; intros Hside; rewrite Hside in Hexec; cbn in Hexec.
    + apply execute_buy_Continue in Hexec. tauto.
    + apply execute_sell_Continue in Hexec as (i & pos & H). tauto.
  - intros p i position Hside Hprice Hdet Hfind Hq.
    destruct (execute_sell_total order p account i position Hfind Hq)
      as [a1 Hsell].
    destruct (record_order now order p a1) as [account' response] eqn:Hrec.
    assert (Hon : place_order_on get_current_price now order account
                  = Continue (account', response)).
    { apply place_order_on_Continue. split; [exact Hprice|].
      exists p, a1. rewrite Hside. cbn. auto. }
    exists account', response.
    split; [apply (place_order_saves _ _ _ _ account); assumption|].
    apply record_order_account in Hrec
      as (Hcash & _ & _ & Hstatus & Hfp & _).
    split; [exact Hstatus|]. split; [exact Hfp|]. rewrite Hcash.
    apply execute_sell_Continue in Hsell as (j & pos & H). tauto.
Qed.

End Transactions.

(** A market buy of 3000 shares at 50 costs more than the starting cash:
    it is rejected and the accounts file is untouched. *)
Lemma place_order_rejected_no_mutation_witness :
  (resp_status (rejected "Insufficient funds") = "rejected"%string ->
   sample_accounts = sample_accounts /\
   is_rejection (market_buy 3000) (rejected "Insufficient funds")) /\
  (all_filled (get_orders sample_accounts) ->
   all_filled (get_orders sample_accounts)).
Proof.
  apply (place_order_rejected_no_mutation quote_50 "2024-01-02T00:00:00"
           (market_buy 3000) sample_accounts).
  vm_compute. reflexivity.
Defined.

(** The two steps of the worked example: buying 10 shares at 50.05 takes
    the cash from 100000 to 99499.5, and selling them at 59.94 is filled
    and takes the cash to 100098.9. *)
Lemma filled_order_cash_witness :
  (exists account' executionPrice,
     sample_holdings !! verify_token = Some account' /\
     Some 50.050 = Some executionPrice /\
     (order_side (market_buy 10) = "buy"%string ->
      acct_cash account'
        = acct_cash sample_account
          - (order_quantity (market_buy 10) * executionPrice
             + COMMISSION_PER_TRADE)) /\
     (order_side (market_buy 10) = "sell"%string ->
      acct_cash account'
        = acct_cash sample_account
          + (order_quantity (market_buy 10) * executionPrice
             - COMMISSION_PER_TRADE))) /\
  (exists account' response,
     place_order quote_60 "2024-01-03T00:00:00" (market_sell 10)
       sample_holdings
     = (<[verify_token := account']> sample_holdings, inl response) /\
     resp_status response = "filled"%string /\
     resp_filledPrice response = Some (apply_slippage 60 "sell") /\
     acct_cash account'
       = acct_cash sample_holding
         + (order_quantity (market_sell 10) * apply_slippage 60 "sell"
            - COMMISSION_PER_TRADE)).
Proof.
  split.
  - apply (proj1 (filled_order_cash quote_50 "2024-01-02T00:00:00"
                    (market_buy 10) sample_accounts sample_account
                    ltac:(vm_compute; reflexivity))
             sample_holdings
             {| resp_orderId := "order_1";
                resp_status := "filled";
                resp_filledPrice := Some 50.050;
                resp_filledQuantity := Some 10;
                resp_message := "Order filled at $50.05" |}).
    + vm_compute. reflexivity.
    + reflexivity.
  - apply (proj2 (filled_order_cash quote_60 "2024-01-03T00:00:00"
                    (market_sell 10) sample_holdings sample_holding
                    ltac:(vm_compute; reflexivity))
             (apply_slippage 60 "sell") 0%nat
             (new_position "XYZ" 10 50.050)).
    + reflexivity.
    + discriminate.
    + reflexivity.
    + reflexivity.
    + discriminate.
Defined.

(** ** The stages of the order path in double precision

    The stages of [Binary64.place_order], characterised by the tests the
    code makes. *)

Section MachineArithmetic.

Import Binary64.
#[local] Open Scope float_scope.

Variable get_current_price : string -> float.

(** A call falls through to "Record order" exactly when a price was
    fetched, an execution price was determined and the execution branch
    did not return or raise. *)
Lemma double_place_order_on_Continue now order account account' response :
  place_order_on get_current_price now order account
    = Continue (account', response) <->
  (get_current_price (order_ticker order) =? 0) = false /\
  exists execution_price account1,
    determine_execution_price order
      (get_current_price (order_ticker order)) = Continue execution_price /\
    (if String.eqb (order_side order) "buy"
     then execute_buy order execution_price account
     else execute_sell order execution_price account) = Continue account1 /\
    record_order now order execution_price account1 = (account', response).
Proof.
  unfold place_order_on. cbv zeta.
  destruct (_ =? 0) eqn:Hp.
  { split; [discriminate | intros [H _]; discriminate H]. }
  split.
  - intros H.
    destruct (determine_execution_price _ _) as [p| |] eqn:Hd;
      cbn in H; try discriminate H.
    destruct (if String.eqb _ _ then _ else _) as [a1| |] eqn:He;
      cbn in H; try discriminate H.
    injection H as <- <-. split; [reflexivity|]. exists p, a1. auto.
  - intros (_ & p & a1 & -> & He & Hr). cbn. rewrite He. cbn.
    rewrite Hr. reflexivity.
Qed.

Lemma double_determine_execution_price_market order market_price :
  order_type order = "market"%string ->
  determine_execution_price order market_price
    = Continue (apply_slippage market_price (order_side order)).
Proof. unfold determine_execution_price. intros ->. reflexivity. Qed.

Lemma double_determine_execution_price_limit_buy order market_price
    limitPrice :
  order_type order <> "market"%string ->
  order_limitPrice order = Some limitPrice ->
  order_side order = "buy"%string ->
  determine_execution_price order market_price =
    if market_price <=? limitPrice then Continue limitPrice
    else Return (rejected "Limit price not favorable for immediate execution").
Proof.
  unfold determine_execution_price.
  intros Htype%String.eqb_neq -> ->. rewrite Htype. cbn.
  destruct (_ <=? _); reflexivity.
Qed.

Lemma double_determine_execution_price_limit_sell order market_price
    limitPrice :
  order_type order <> "market"%string ->
  order_limitPrice order = Some limitPrice ->
  order_side order = "sell"%string ->
  determine_execution_price order market_price =
    if limitPrice <=? market_price then Continue limitPrice
    else Return (rejected "Limit price not favorable for immediate execution").
Proof.
  unfold determine_execution_price.
  intros Htype%String.eqb_neq -> ->. rewrite Htype. cbn.
  destruct (_ <=? _); reflexivity.
Qed.

Lemma double_determine_execution_price_limit order market_price p :
  order_type order <> "market"%string ->
  determine_execution_price order market_price = Continue p ->
  order_limitPrice order = Some p.
Proof.
  unfold determine_execution_price.
  intros Htype%String.eqb_neq. rewrite Htype.
  destruct (order_limitPrice order) as [limitPrice|]; [|discriminate].
  destruct (_ && _); [intros [= <-]; reflexivity|].
  destruct (_ && _); [intros [= <-]; reflexivity|discriminate].
Qed.

Lemma double_find_position_Some ticker positions i pos :
  find_position ticker positions = Some (i, pos) <->
  positions !! i = Some pos /\ pos_ticker pos = ticker /\
  forall j other, positions !! j = Some other -> (j < i)%nat ->
                  pos_ticker other <> ticker.
Proof. unfold find_position. rewrite list_find_Some. reflexivity. Qed.

Lemma double_find_position_None ticker positions :
  find_position ticker positions = None <->
  Forall (fun pos => pos_ticker pos <> ticker) positions.
Proof. unfold find_position. rewrite list_find_None. reflexivity. Qed.

Lemma double_position_eqb_ticker (p q : Position) :
  pos_ticker p <> pos_ticker q -> position_eqb p q = false.
Proof.
  intros H%String.eqb_neq. unfold position_eqb. rewrite H. reflexivity.
Qed.

(** [positions.remove(position)] on the entry found by the loop removes
    exactly that entry and never raises: the entries before it are of
    other tickers, and the entry itself is the object searched for. *)
Lemma double_list_remove_found ticker positions i pos pos' :
  find_position ticker positions = Some (i, pos) ->
  pos_ticker pos' = ticker ->
  list_remove i pos' (<[i := pos']> positions) = Some (delete i positions).
Proof.
  intros Hfind Ht. revert i Hfind.
  induction positions as [|y rest IH]; intros i Hfind.
  { discriminate Hfind. }
  unfold find_position in Hfind. cbn in Hfind.
  destruct (decide (pos_ticker y = ticker)) as [Hy|Hy].
  - injection Hfind as <- <-. reflexivity.
  - destruct (list_find _ rest) as [[j z]|] eqn:Hrest; [|discriminate Hfind].
    injection Hfind as <- <-.
    change (list_remove (S j) pos' (y :: <[j := pos']> rest)
            = Some (y :: delete j rest)).
    cbn [list_remove]. rewrite double_position_eqb_ticker by congruence.
    cbn. rewrite (IH j) by exact Hrest. reflexivity.
Qed.

(** A buy falls through exactly when the funds test and the division of
    the cost-basis update let it, and then leaves this account. *)
Lemma double_execute_buy_Continue order p account account1 :
  execute_buy order p account = Continue account1 <->
  (acct_cash account <? order_quantity order * p + COMMISSION_PER_TRADE)
    = false /\
  let cash :=
    acct_cash account - (order_quantity order * p + COMMISSION_PER_TRADE) in
  match find_position (order_ticker order) (acct_positions account) with
  | Some (i, existing) =>
      (pos_quantity existing + order_quantity order =? 0) = false /\
      account1 =
        set_cash_positions cash
          (<[i := set_quantity_avgCostBasis
                   (pos_quantity existing + order_quantity order)
                   ((pos_quantity existing * pos_avgCostBasis existing
                     + order_quantity order * p)
                    / (pos_quantity existing + order_quantity order))
                   existing]> (acct_positions account))
          account
  | None =>
      account1 =
        set_cash_positions cash
          (acct_positions account
             ++ [new_position (order_ticker order) (order_quantity order) p])
          account
  end.
Proof.
  unfold execute_buy. cbv zeta.
  destruct (_ <? _) eqn:Hcash.
  { split; [discriminate | intros [H _]; discriminate H]. }
  destruct (find_position _ _) as [[i existing]|].
  - destruct (_ =? 0) eqn:Hz.
    + split; [discriminate | intros (_ & H & _); discriminate H].
    + split; [intros [= <-]; auto | intros (_ & _ & ->); reflexivity].
  - split; [intros [= <-]; auto | intros (_ & ->); reflexivity].
Qed.

(** A sell falls through exactly when the ticker is held and the test
    [position['quantity'] < order.quantity] fails, and then leaves this
    account. *)
Lemma double_execute_sell_Continue order p account account1 :
  execute_sell order p account = Continue account1 <->
  exists i position,
    find_position (order_ticker order) (acct_positions account)
      = Some (i, position) /\
    (pos_quantity position <? order_quantity order) = false /\
    account1 =
      set_cash_positions
        (acct_cash account
         + (order_quantity order * p - COMMISSION_PER_TRADE))
        (if pos_quantity position - order_quantity order =? 0
         then delete i (acct_positions account)
         else <[i := set_quantity
                       (pos_quantity position - order_quantity order)
                       position]> (acct_positions account))
        account.
Proof.
  unfold execute_sell. cbv zeta.
  destruct (find_position _ _) as [[i position]|] eqn:Hfind.
  2: { split; [discriminate | intros (i & position & H & _); discriminate H]. }
  assert (Hremove :
    list_remove i
      (set_quantity (pos_quantity position - order_quantity order) position)
      (<[i := set_quantity (pos_quantity position - order_quantity order)
                position]> (acct_positions account))
    = Some (delete i (acct_positions account))).
  { eapply double_list_remove_found; [exact Hfind|].
    cbn. eapply double_find_position_Some, Hfind. }
  cbn [pos_quantity set_quantity set_quantity_avgCostBasis] in *.
  destruct (_ <? _) eqn:Hq.
  { split; [discriminate|].
    intros (i' & position' & [= <- <-] & H & _). congruence. }
  destruct (_ =? 0) eqn:Hz.
  - rewrite Hremove. split.
    + intros [= <-]. exists i, position. rewrite Hq, Hz. auto.
    + intros (i' & position' & [= <- <-] & _ & ->). rewrite Hz. reflexivity.
  - split.
    + intros [= <-]. exists i, position. rewrite Hq, Hz. auto.
    + intros (i' & position' & [= <- <-] & _ & ->). rewrite Hz. reflexivity.
Qed.

Lemma double_record_order now order p account1 account' response :
  record_order now order p account1 = (account', response) ->
  acct_cash account' = acct_cash account1 /\
  acct_positions account' = acct_positions account1 /\
  resp_status response = "filled"%string /\
  resp_filledPrice response = Some p /\
  resp_filledQuantity response = Some (order_quantity order).
Proof. intros [= <- <-]. cbn. auto. Qed.

(** The filled price of a response is the execution price determined for
    the order. *)
Lemma double_place_order_on_filledPrice now order account account' response :
  place_order_on get_current_price now order account
    = Continue (account', response) ->
  exists p,
    determine_execution_price order
      (get_current_price (order_ticker order)) = Continue p /\
    resp_filledPrice response = Some p.
Proof.
  intros (_ & p & a1 & Hprice & _ & Hrec)%double_place_order_on_Continue.
  apply double_record_order in Hrec. exists p. tauto.
Qed.

(** Once a price is available and an execution price determined, the call
    is filled exactly when the execution branch falls through. *)
Lemma double_place_order_on_filled now order account p :
  (get_current_price (order_ticker order) =? 0) = false ->
  determine_execution_price order (get_current_price (order_ticker order))
    = Continue p ->
  (exists account' response,
     place_order_on get_current_price now order account
       = Continue (account', response)) <->
  exists account1,
    (if String.eqb (order_side order) "buy"
     then execute_buy order p account
     else execute_sell order p account) = Continue account1.
Proof.
  intros Hprice Hd. split.
  - intros (account' & response
            & (_ & p' & a1 & Hd' & Hexec & _)%double_place_order_on_Continue).
    assert (p' = p) as -> by congruence. eauto.
  - intros (account1 & Hexec).
    destruct (record_order now order p account1) as [account' response] eqn:Hr.
    exists account', response. apply double_place_order_on_Continue.
    split; [exact Hprice|]. eauto.
Qed.

(** A buy whose cost, as the code computes it, exceeds the cash is
    rejected before anything is written. *)
Lemma double_insufficient_funds now order (accounts : Accounts) account p :
  accounts !! verify_token = Some account ->
  order_side order = "buy"%string ->
  (get_current_price (order_ticker order) =? 0) = false ->
  determine_execution_price order (get_current_price (order_ticker order))
    = Continue p ->
  (acct_cash account <? order_quantity order * p + COMMISSION_PER_TRADE)
    = true ->
  place_order get_current_price now order accounts
    = (accounts, inl (rejected "Insufficient funds")).
Proof.
  intros Hacc Hside Hprice Hdet Hshort.
  unfold place_order, place_order_on. cbv zeta. rewrite Hacc, Hprice, Hdet.
  rewrite Hside. cbn. unfold execute_buy. cbv zeta. rewrite Hshort.
  reflexivity.
Qed.

(** A buy that is filled passed the funds test, and the cash saved is the
    cash before less the cost. *)
Lemma double_filled_buy_cash now order (accounts accounts' : Accounts)
    account response :
  accounts !! verify_token = Some account ->
  order_side order = "buy"%string ->
  place_order get_current_price now order accounts
    = (accounts', inl response) ->
  resp_status response = "filled"%string ->
  exists p account',
    resp_filledPrice response = Some p /\
    (acct_cash account <? order_quantity order * p + COMMISSION_PER_TRADE)
      = false /\
    accounts' !! verify_token = Some account' /\
    acct_cash account'
      = acct_cash account
        - (order_quantity order * p + COMMISSION_PER_TRADE).
Proof.
  intros Hacc Hside. unfold place_order. cbv zeta. rewrite Hacc.
  destruct (place_order_on _ _ _ _) as [[account' r]|r|e] eqn:Hon;
    [|intros [= <- <-]|discriminate].
  - intros [= <- <-] _.
    apply double_place_order_on_Continue in Hon
      as (_ & p & a1 & _ & Hexec & Hrec).
    rewrite Hside in Hexec. cbn in Hexec.
    apply double_execute_buy_Continue in Hexec as (Hcash & Ha1).
    apply double_record_order in Hrec as (Hc & _ & _ & Hfp & _).
    exists p, account'. rewrite lookup_insert_eq.
    split; [exact Hfp|]. split; [exact Hcash|]. split; [reflexivity|].
    rewrite Hc. cbv zeta in Ha1.
    destruct (find_position _ _) as [[i existing]|];
      [destruct Ha1 as [_ ->] | rewrite Ha1]; reflexivity.
  - intros Hfilled. exfalso. revert Hfilled Hon.
    unfold place_order_on. cbv zeta.
    destruct (_ =? 0); [intros H [= <-]; discriminate H|].
    unfold determine_execution_price.
    destruct (String.eqb (order_type order) "market"); cbn.
    + rewrite Hside. cbn. unfold execute_buy. cbv zeta.
      destruct (_ <? _); [intros H [= <-]; discriminate H|].
      destruct (find_position _ _) as [[i existing]|]; [|discriminate].
      destruct (_ =? 0); discriminate.
    + destruct (order_limitPrice order) as [lp|]; cbn;
        [|intros H [= <-]; discriminate H].
      rewrite Hside. cbn.
      destruct (_ <=? _); cbn; [|intros H [= <-]; discriminate H].
      unfold execute_buy. cbv zeta.
      destruct (_ <? _); [intros H [= <-]; discriminate H|].
      destruct (find_position _ _) as [[i existing]|]; [|discriminate].
      destruct (_ =? 0); discriminate.
Qed.

End MachineArithmetic.

(** ** Execution price *)

(** With floats read as rationals the slippage rate is one thousandth
    and the slipped price a multiple of the price; the lemmas below use
    this for the sign of an execution price only. *)
Lemma slippage_rate : SLIPPAGE_PERCENT / 100 == 0.001.
Proof. reflexivity. Qed.

Lemma apply_slippage_sell (price : Q) :
  apply_slippage price "sell" == price * (1 - 0.001).
Proof. unfold apply_slippage. cbn. rewrite slippage_rate. ring. Qed.

Lemma determine_execution_price_market order market_price :
  order_type order = "market"%string ->
  determine_execution_price order market_price
    = Continue (apply_slippage market_price (order_side order)).
Proof. unfold determine_execution_price. intros ->. reflexivity. Qed.

Section MachineExecutionPrice.

Import Binary64.
#[local] Open Scope float_scope.

Variable get_current_price : string -> float.

(** C7, as the code has it.  The slippage rate is [SLIPPAGE_PERCENT /
    100], which is the double 0.001.  For a market order and a reference
    price [market_price] the execution price is the double the code
    computes, [market_price + market_price * (SLIPPAGE_PERCENT / 100)] for
    a buy and [market_price - market_price * (SLIPPAGE_PERCENT / 100)] for
    a sell, each operation rounded; for an order that is not a market
    order the execution price, when there is one, is the limit price
    itself; and the filled price of every filled order is that execution
    price. *)
Theorem slippage_on_market_orders_only now order account :
  let market_price := get_current_price (order_ticker order) in
  SLIPPAGE_PERCENT / 100 = 0.001 /\
  (order_type order = "market"%string ->
   exists p,
     determine_execution_price order market_price = Continue p /\
     (order_side order = "buy"%string ->
      p = market_price + market_price * (SLIPPAGE_PERCENT / 100)) /\
     (order_side order = "sell"%string ->
      p = market_price - market_price * (SLIPPAGE_PERCENT / 100))) /\
  (order_type order <> "market"%string ->
   forall p,
     determine_execution_price order market_price = Continue p ->
     order_limitPrice order = Some p) /\
  (forall account' response,
     place_order_on get_current_price now order account
       = Continue (account', response) ->
     exists p,
       determine_execution_price order market_price = Continue p /\
       resp_filledPrice response = Some p).
Proof.
  intros market_price. split; [reflexivity|]. split; [|split].
  - intros Htype. eexists. split.
    + apply double_determine_execution_price_market, Htype.
    + split; intros ->; reflexivity.
  - intros Htype p. apply double_determine_execution_price_limit, Htype.
  - intros account' response. apply double_place_order_on_filledPrice.
Qed.

End MachineExecutionPrice.

(** A market buy at 60 executes at [60 + 60 * (0.1 / 100)], a market sell
    at 60 at [60 - 60 * (0.1 / 100)], and a limit buy at 55 at 55. *)
Lemma slippage_on_market_orders_only_witness :
  (exists p,
     Binary64.determine_execution_price (Binary64.market_buy 3) 60
       = Binary64.Continue p /\
     (Binary64.order_side (Binary64.market_buy 3) = "buy"%string ->
      p = (60 + 60 * (Binary64.SLIPPAGE_PERCENT / 100))%float) /\
     (Binary64.order_side (Binary64.market_buy 3) = "sell"%string ->
      p = (60 - 60 * (Binary64.SLIPPAGE_PERCENT / 100))%float)) /\
  (exists p,
     Binary64.determine_execution_price (Binary64.market_sell 3) 60
       = Binary64.Continue p /\
     (Binary64.order_side (Binary64.market_sell 3) = "buy"%string ->
      p = (60 + 60 * (Binary64.SLIPPAGE_PERCENT / 100))%float) /\
     (Binary64.order_side (Binary64.market_sell 3) = "sell"%string ->
      p = (60 - 60 * (Binary64.SLIPPAGE_PERCENT / 100))%float)) /\
  Binary64.order_limitPrice (Binary64.limit_buy 10 55) = Some 55%float.
Proof.
  split; [|split].
  - apply (slippage_on_market_orders_only (Binary64.quote 60)
             "2024-01-02T00:00:00" (Binary64.market_buy 3)
             (Binary64.account_with 100000 [])). reflexivity.
  - apply (slippage_on_market_orders_only (Binary64.quote 60)
             "2024-01-03T00:00:00" (Binary64.market_sell 3)
             (Binary64.account_with 100000 [])). reflexivity.
  - apply (slippage_on_market_orders_only (Binary64.quote 50)
             "2024-01-02T00:00:00" (Binary64.limit_buy 10 55)
             (Binary64.account_with 100000 []));
      [discriminate|reflexivity].
Defined.

(** C7 as stated fails in the arithmetic of the code: a market buy of 3
    shares at a reference price of 60 is filled at 60.06, the double that
    [60 + 60 * (0.1 / 100)] gives, whereas [60 * (1 + 0.001)] is the
    double 60.059999999999995. *)
Lemma market_buy_price_is_not_the_product :
  exists accounts' response,
    Binary64.place_order (Binary64.quote 60) "2024-01-02T00:00:00"
      (Binary64.market_buy 3) (Binary64.accounts_with 100000 [])
    = (accounts', inl response) /\
    Binary64.resp_status response = "filled"%string /\
    Binary64.resp_filledPrice response = Some 60.06%float /\
    (60 * (1 + 0.001))%float = 60.059999999999995%float /\
    (60.06 =? 60 * (1 + 0.001))%float = false /\
    (60.06 =? 60 * (1 + Binary64.SLIPPAGE_PERCENT / 100))%float = false.
Proof.
  eexists _, _. split; [vm_compute; reflexivity|].
  repeat split; vm_compute; reflexivity.
Qed.

(** ** Limit orders *)

Section MachineLimitOrders.

Import Binary64.
#[local] Open Scope float_scope.

Variable get_current_price : string -> float.

(** C5, as the code has it.  For a limit order with an available market
    price and a limit price: the price check passes, with execution price
    exactly the limit price, iff [limitPrice >= marketPrice] for a buy and
    iff [limitPrice <= marketPrice] for a sell.  The order is filled iff
    the price check passes and the execution step goes through, as the
    code tests it on doubles: for a buy [cash < quantity * limitPrice +
    commission] is false (and the held quantity plus the bought one is
    not zero), for a sell a position is held and [held quantity <
    requested quantity] is false.  Every fill is at exactly the limit
    price, and an order that fails the price check is rejected with
    "Limit price not favorable for immediate execution". *)
Theorem limit_order_fill now order account limitPrice :
  let market_price := get_current_price (order_ticker order) in
  let filled :=
    exists account' response,
      place_order_on get_current_price now order account
        = Continue (account', response) in
  let not_favorable :=
    place_order_on get_current_price now order account
      = Return (rejected "Limit price not favorable for immediate execution")
  in
  order_type order <> "market"%string ->
  order_limitPrice order = Some limitPrice ->
  (market_price =? 0) = false ->
  (order_side order = "buy"%string ->
   (determine_execution_price order market_price = Continue limitPrice
    <-> (market_price <=? limitPrice) = true) /\
   (filled <->
    (market_price <=? limitPrice) = true /\
    (acct_cash account
       <? order_quantity order * limitPrice + COMMISSION_PER_TRADE) = false /\
    forall i existing,
      find_position (order_ticker order) (acct_positions account)
        = Some (i, existing) ->
      (pos_quantity existing + order_quantity order =? 0) = false) /\
   ((market_price <=? limitPrice) = false -> not_favorable)) /\
  (order_side order = "sell"%string ->
   (determine_execution_price order market_price = Continue limitPrice
    <-> (limitPrice <=? market_price) = true) /\
   (filled <->
    (limitPrice <=? market_price) = true /\
    exists i position,
      find_position (order_ticker order) (acct_positions account)
        = Some (i, position) /\
      (pos_quantity position <? order_quantity order) = false) /\
   ((limitPrice <=? market_price) = false -> not_favorable)) /\
  (forall account' response,
     place_order_on get_current_price now order account
       = Continue (account', response) ->
     resp_filledPrice response = Some limitPrice).
Proof.
  intros market_price filled not_favorable Htype Hlimit Hprice.
  assert (Hunfold :
    place_order_on get_current_price now order account =
    execution_price ← determine_execution_price order market_price;
    account' ← (if String.eqb (order_side order) "buy"
                then execute_buy order execution_price account
                else execute_sell order execution_price account);
    Continue (record_order now order execution_price account')).
  { unfold place_order_on. cbv zeta. fold market_price.
    rewrite Hprice. reflexivity. }
  split; [|split].
  - intros Hside.
    pose proof (double_determine_execution_price_limit_buy order market_price
                  limitPrice Htype Hlimit Hside) as Hd.
    split; [|split].
    + rewrite Hd. destruct (_ <=? _); split; congruence.
    + destruct (market_price <=? limitPrice) eqn:Hle.
      * unfold filled.
        rewrite (double_place_order_on_filled get_current_price now order
                   account limitPrice Hprice Hd), Hside.
        cbn. split.
        -- intros (a1 & (Hcash & Hpos)%double_execute_buy_Continue).
           split; [reflexivity|]. split; [exact Hcash|].
           intros i existing Hfind. cbv zeta in Hpos.
           rewrite Hfind in Hpos. tauto.
        -- intros (_ & Hcash & Hdiv).
           destruct (find_position (order_ticker order)
                       (acct_positions account)) as [[i existing]|] eqn:Hfind.
           ++ eexists. apply double_execute_buy_Continue.
              split; [exact Hcash|]. cbv zeta. rewrite Hfind.
              split; [eapply Hdiv; reflexivity | reflexivity].
           ++ eexists. apply double_execute_buy_Continue.
              split; [exact Hcash|]. cbv zeta. rewrite Hfind. reflexivity.
      * unfold filled. rewrite Hunfold, Hd. cbn. split.
        -- intros (a' & r & H). discriminate H.
        -- intros [H _]. discriminate H.
    + intros Hnle. unfold not_favorable. rewrite Hunfold, Hd, Hnle.
      reflexivity.
  - intros Hside.
    pose proof (double_determine_execution_price_limit_sell order market_price
                  limitPrice Htype Hlimit Hside) as Hd.
    split; [|split].
    + rewrite Hd. destruct (_ <=? _); split; congruence.
    + destruct (limitPrice <=? market_price) eqn:Hle.
      * unfold filled.
        rewrite (double_place_order_on_filled get_current_price now order
                   account limitPrice Hprice Hd), Hside.
        cbn. split.
        -- intros (a1 & (i & position & Hfind & Hq & _)
                          %double_execute_sell_Continue).
           split; [reflexivity|]. eauto.
        -- intros (_ & i & position & Hfind & Hq).
           eexists. apply double_execute_sell_Continue.
           exists i, position. eauto.
      * unfold filled. rewrite Hunfold, Hd. cbn. split.
        -- intros (a' & r & H). discriminate H.
        -- intros [H _]. discriminate H.
    + intros Hnle. unfold not_favorable. rewrite Hunfold, Hd, Hnle.
      reflexivity.
  - intros account' response
      (p & Hd%(double_determine_execution_price_limit _ _ _ Htype) & Hfp)
      %double_place_order_on_filledPrice.
    congruence.
Qed.

End MachineLimitOrders.

(** A limit buy of 3 at 0.3 against a market price of 0.25 is filled from
    a cash of 0.8999999999999999: the cost [3 * 0.3] is that same double,
    so that [cash < cost] is false. *)
Lemma limit_order_fill_witness :
  exists account' response,
    Binary64.place_order_on (Binary64.quote 0.25) "2024-01-02T00:00:00"
      (Binary64.limit_buy 3 0.3)
      (Binary64.account_with 0.8999999999999999 [])
    = Binary64.Continue (account', response).
Proof.
  assert (Hwitness := limit_order_fill (Binary64.quote 0.25)
                        "2024-01-02T00:00:00" (Binary64.limit_buy 3 0.3)
                        (Binary64.account_with 0.8999999999999999 [])
                        0.3%float).
  cbv zeta in Hwitness.
  destruct Hwitness as [Hbuy _];
    [discriminate|reflexivity|reflexivity|].
  destruct (Hbuy eq_refl) as (_ & Hfilled & _).
  apply Hfilled. split; [reflexivity|]. split; [reflexivity|].
  intros i existing Hfind. discriminate Hfind.
Defined.

(** C5 as stated fails: with a market price of 50, a limit buy of 3000
    shares at 60 has [limitPrice >= marketPrice], and yet it is not
    filled; it is rejected for insufficient funds. *)
Lemma limit_buy_favorable_not_filled :
  order_type (limit_buy 3000 60) <> "market"%string /\
  order_limitPrice (limit_buy 3000 60) = Some 60 /\
  ~ quote_50 (order_ticker (limit_buy 3000 60)) == 0 /\
  quote_50 (order_ticker (limit_buy 3000 60)) <= 60 /\
  place_order quote_50 "2024-01-02T00:00:00" (limit_buy 3000 60)
    sample_accounts
  = (sample_accounts, inl (rejected "Insufficient funds")).
Proof.
  split; [discriminate|]. split; [reflexivity|].
  split; [discriminate|]. split; [discriminate|].
  vm_compute. reflexivity.
Qed.

(** ** Cash never goes negative *)

(** With a side other than ["buy"], a non-negative market price and a
    non-negative limit price give a non-negative execution price. *)
Lemma determine_execution_price_nonneg order market_price p :
  order_side order <> "buy"%string ->
  0 <= market_price ->
  (forall limitPrice,
     order_limitPrice order = Some limitPrice -> 0 <= limitPrice) ->
  determine_execution_price order market_price = Continue p ->
  0 <= p.
Proof.
  intros Hside%String.eqb_neq Hmarket Hlimit.
  unfold determine_execution_price.
  destruct (String.eqb (order_type order) "market").
  - intros [= <-]. unfold apply_slippage. rewrite Hside. cbv zeta.
    rewrite slippage_rate. lra.
  - destruct (order_limitPrice order) as [limitPrice|]; [|discriminate].
    specialize (Hlimit limitPrice eq_refl).
    destruct (_ && _); [intros [= <-]; exact Hlimit|].
    destruct (_ && _); [intros [= <-]; exact Hlimit|discriminate].
Qed.

Section CashInvariant.

Variable get_current_price : string -> Q.

(** What [place_order_on] does to the cash of an account it saves. *)
Lemma place_order_on_cash now order account account' response :
  place_order_on get_current_price now order account
    = Continue (account', response) ->
  exists p,
    determine_execution_price order
      (get_current_price (order_ticker order)) = Continue p /\
    if String.eqb (order_side order) "buy" then
      order_quantity order * p + COMMISSION_PER_TRADE <= acct_cash account /\
      acct_cash account'
        = acct_cash account
          - (order_quantity order * p + COMMISSION_PER_TRADE)
    else
      acct_cash account'
        = acct_cash account
          + (order_quantity order * p - COMMISSION_PER_TRADE).
Proof.
  intros (_ & p & a1 & Hprice & Hexec & Hrec)%place_order_on_Continue.
  apply record_order_account in Hrec as (-> & _).
  exists p. split; [exact Hprice|].
  destruct (String.eqb _ _).
  - apply execute_buy_Continue in Hexec. tauto.
  - apply execute_sell_Continue in Hexec as (i & pos & H). tauto.
Qed.

(** C1, as the code has it.  From an account with non-negative cash, and
    for numbers that are finite (no NaN, no infinity, no overflow): the
    account left by [place_order] has non-negative cash for every buy, and
    for every sell whose quantity, market price and limit price are
    non-negative; and the account left by [reset_account] has the starting
    cash, which is not negative.  In the arithmetic of the code: a buy
    whose cost [quantity * executionPrice + commission], computed in
    doubles, exceeds the cash is rejected with "Insufficient funds" and
    the accounts file is unchanged; a buy that is filled passed that test
    and the cash saved is the cash before less that cost. *)
Theorem cash_stays_non_negative now order accounts account :
  accounts !! verify_token = Some account ->
  0 <= acct_cash account ->
  (order_side order = "buy"%string \/
   (0 <= order_quantity order /\
    0 <= get_current_price (order_ticker order) /\
    forall limitPrice,
      order_limitPrice order = Some limitPrice -> 0 <= limitPrice)) ->
  (exists account',
     (place_order get_current_price now order accounts).1 !! verify_token
       = Some account' /\
     0 <= acct_cash account') /\
  (exists account',
     reset_account now accounts !! verify_token = Some account' /\
     acct_cash account' = STARTING_CASH /\
     0 <= acct_cash account') /\
  (forall price_source (buy : Binary64.Order)
          (accounts64 : Binary64.Accounts) account64 executionPrice,
     accounts64 !! verify_token = Some account64 ->
     Binary64.order_side buy = "buy"%string ->
     (price_source (Binary64.order_ticker buy) =? 0)%float = false ->
     Binary64.determine_execution_price buy
       (price_source (Binary64.order_ticker buy))
       = Binary64.Continue executionPrice ->
     (Binary64.acct_cash account64
        <? Binary64.order_quantity buy * executionPrice
           + Binary64.COMMISSION_PER_TRADE)%float = true ->
     Binary64.place_order price_source now buy accounts64
       = (accounts64, inl (Binary64.rejected "Insufficient funds"))) /\
  (forall price_source (buy : Binary64.Order)
          (accounts64 accounts64' : Binary64.Accounts) account64 response,
     accounts64 !! verify_token = Some account64 ->
     Binary64.order_side buy = "buy"%string ->
     Binary64.place_order price_source now buy accounts64
       = (accounts64', inl response) ->
     Binary64.resp_status response = "filled"%string ->
     exists executionPrice account64',
       Binary64.resp_filledPrice response = Some executionPrice /\
       (Binary64.acct_cash account64
          <? Binary64.order_quantity buy * executionPrice
             + Binary64.COMMISSION_PER_TRADE)%float = false /\
       accounts64' !! verify_token = Some account64' /\
       Binary64.acct_cash account64'
         = (Binary64.acct_cash account64
            - (Binary64.order_quantity buy * executionPrice
               + Binary64.COMMISSION_PER_TRADE))%float).
Proof.
  intros Hacc Hcash Horder. split; [|split; [|split]].
  - unfold place_order. cbv zeta. rewrite Hacc.
    destruct (place_order_on _ _ _ _) as [[account' response]| |] eqn:Hon;
      cbn [fst]; [|eauto..].
    rewrite lookup_insert_eq. exists account'. split; [reflexivity|].
    apply place_order_on_cash in Hon as (p & Hprice & Hon).
    destruct (String.eqb (order_side order) "buy") eqn:Hside.
    + destruct Hon as [Hle ->]. lra.
    + rewrite Hon. apply String.eqb_neq in Hside.
      destruct Horder as [Hbuy | (Hq & Hmarket & Hlimit)];
        [contradiction|].
      pose proof (determine_execution_price_nonneg order _ p Hside Hmarket
                    Hlimit Hprice) as Hp.
      pose proof (Qmult_le_0_compat _ _ Hq Hp) as Hproceeds.
      unfold COMMISSION_PER_TRADE. lra.
  - unfold reset_account. cbv zeta. rewrite lookup_insert_eq.
    eexists. split; [reflexivity|]. split; [reflexivity|]. discriminate.
  - intros price_source buy accounts64 account64 p.
    apply double_insufficient_funds.
  - intros price_source buy accounts64 accounts64' account64 response.
    apply double_filled_buy_cash.
Qed.

End CashInvariant.

(** The worked example: selling the 10 shares at 59.94 leaves a cash of
    about 100098.9, and a reset the starting cash.  In doubles: a market
    buy of 5 shares at 1.1 costs 5.505500000000001, which exceeds a cash
    of 5.5055000000000005, and is rejected. *)
Lemma cash_stays_non_negative_witness :
  (exists account',
     (place_order quote_60 "2024-01-03T00:00:00" (market_sell 10)
        sample_holdings).1 !! verify_token = Some account' /\
     0 <= acct_cash account') /\
  (exists account',
     reset_account "2024-01-03T00:00:00" sample_holdings !! verify_token
       = Some account' /\
     acct_cash account' = STARTING_CASH /\
     0 <= acct_cash account') /\
  Binary64.place_order (Binary64.quote 1.1) "2024-01-03T00:00:00"
    (Binary64.market_buy 5) (Binary64.accounts_with 5.5055000000000005 [])
  = (Binary64.accounts_with 5.5055000000000005 [],
     inl (Binary64.rejected "Insufficient funds")).
Proof.
  destruct (cash_stays_non_negative quote_60 "2024-01-03T00:00:00"
              (market_sell 10) sample_holdings sample_holding)
    as (Hplace & Hreset & Hrejected & _).
  - vm_compute. reflexivity.
  - discriminate.
  - right. split; [discriminate|]. split; [discriminate|].
    intros limitPrice Hlimit. discriminate Hlimit.
  - split; [exact Hplace|]. split; [exact Hreset|].
    apply (Hrejected (Binary64.quote 1.1) (Binary64.market_buy 5)
             (Binary64.accounts_with 5.5055000000000005 [])
             (Binary64.account_with 5.5055000000000005 [])
             (Binary64.apply_slippage 1.1 "buy")).
    + vm_compute. reflexivity.
    + reflexivity.
    + reflexivity.
    + reflexivity.
    + reflexivity.
Defined.

(** Why the numbers are required to be finite: in doubles a market buy of
    a NaN quantity passes every test of [place_order], since a comparison
    with NaN is false, and the account saved has NaN as its cash. *)
Example nan_quantity_buy_is_filled :
  exists accounts' response account',
    Binary64.place_order (Binary64.quote 50) "2024-01-02T00:00:00"
      (Binary64.market_buy nan) (Binary64.accounts_with 100000 [])
    = (accounts', inl response) /\
    Binary64.resp_status response = "filled"%string /\
    accounts' !! verify_token = Some account' /\
    Binary64.acct_cash account' = nan /\
    (0 <=? Binary64.acct_cash account')%float = false.
Proof.
  eexists _, _, _. split; [vm_compute; reflexivity|].
  split; [reflexivity|]. split; [vm_compute; reflexivity|].
  split; reflexivity.
Qed.

(** C1 as stated fails: the holder of 10 shares who sells -3000 shares at
    a market price of 50 has the order filled at 49.95, and the cash goes
    from 99499.5 to 99499.5 - 149850 < 0. *)
Lemma negative_sell_drives_cash_negative :
  sample_holdings !! verify_token = Some sample_holding /\
  0 <= acct_cash sample_holding /\
  exists accounts' response account',
    place_order quote_50 "2024-01-03T00:00:00" (market_sell (-3000))
      sample_holdings = (accounts', inl response) /\
    resp_status response = "filled"%string /\
    accounts' !! verify_token = Some account' /\
    acct_cash account' < 0.
Proof.
  split; [vm_compute; reflexivity|]. split; [discriminate|].
  eexists _, _, _. split; [vm_compute; reflexivity|].
  split; [reflexivity|]. split; [vm_compute; reflexivity|].
  reflexivity.
Qed.

(** The holding used above is the state the first order of the worked
    example leaves behind, and selling it at 60 gives the final state of
    the example. *)
Example worked_example_buy :
  place_order quote_50 "2024-01-02T00:00:00" (market_buy 10) sample_accounts
  = (sample_holdings,
     inl {| resp_orderId := "order_1";
            resp_status := "filled";
            resp_filledPrice := Some 50.050;
            resp_filledQuantity := Some 10;
            resp_message := "Order filled at $50.05" |}).
Proof. vm_compute. reflexivity. Qed.

Example worked_example_sell :
  place_order quote_60 "2024-01-03T00:00:00" (market_sell 10)
    sample_holdings
  = ({[ "user_1"%string := sample_sold ]}, inl sample_sold_response).
Proof. vm_compute. reflexivity. Qed.

Example worked_example_cash :
  acct_cash sample_holding == 99499.5 /\ acct_cash sample_sold == 100098.9.
Proof. split; reflexivity. Qed.

(** ** Selling *)

(** With one entry per ticker, deleting the entry found leaves no entry
    of that ticker. *)
Lemma find_position_delete ticker (positions : list Position) i position :
  find_position ticker positions = Some (i, position) ->
  NoDup (pos_ticker <$> positions) ->
  find_position ticker (delete i positions) = None.
Proof.
  intros (Hi & Hticker & Hfirst)%find_position_Some Hnodup.
  apply find_position_None, Forall_lookup. intros j other Hj Hother.
  destruct (decide (j < i)%nat) as [Hlt|Hge].
  - rewrite list_lookup_delete_lt in Hj by exact Hlt.
    exact (Hfirst j other Hj Hlt Hother).
  - rewrite list_lookup_delete_ge in Hj by lia.
    assert ((pos_ticker <$> positions) !! i = Some ticker) as Hi'
      by (rewrite list_lookup_fmap, Hi, <- Hticker; reflexivity).
    assert ((pos_ticker <$> positions) !! S j = Some ticker) as Hj'
      by (rewrite list_lookup_fmap, Hj, <- Hother; reflexivity).
    pose proof (NoDup_lookup _ _ _ _ Hnodup Hi' Hj'). lia.
Qed.

Section Selling.

Variable get_current_price : string -> Q.


End Selling.



(** ** Reset *)

(** C9, as the code has it.  After [reset_account] the account of the
    user has cash [STARTING_CASH], no positions and no orders.  A second
    reset changes nothing in the user id, cash, positions and orders; the
    creation timestamp is the one of the latest reset, so that two resets
    leave what the second one alone leaves, and they leave what the first
    one alone leaves exactly when the clock reads the same at both. *)
Theorem reset_account_idempotent now1 now2 (accounts : Accounts) :
  (exists once,
     reset_account now1 accounts !! verify_token = Some once /\
     acct_cash once = STARTING_CASH /\
     acct_positions once = [] /\
     acct_orders once = [] /\
     exists twice,
       reset_account now2 (reset_account now1 accounts) !! verify_token
         = Some twice /\
       acct_userId twice = acct_userId once /\
       acct_cash twice = acct_cash once /\
       acct_positions twice = acct_positions once /\
       acct_orders twice = acct_orders once /\
       acct_createdAt once = now1 /\
       acct_createdAt twice = now2) /\
  reset_account now2 (reset_account now1 accounts)
    = reset_account now2 accounts /\
  (reset_account now2 (reset_account now1 accounts)
     = reset_account now1 accounts
   <-> now1 = now2).
Proof.
  unfold reset_account. cbv zeta. split; [|split].
  - eexists. split; [apply lookup_insert_eq|]. do 3 (split; [reflexivity|]).
    eexists. split; [apply lookup_insert_eq|]. repeat split.
  - apply insert_insert_eq.
  - rewrite insert_insert_eq. split.
    + intros H.
      apply (f_equal (fun m : Accounts => m !! verify_token)) in H.
      rewrite !lookup_insert_eq in H. unfold fresh_account in H.
      congruence.
    + intros ->. reflexivity.
Qed.

(** Two resets at the same clock reading leave what one leaves. *)
Lemma reset_account_idempotent_witness :
  reset_account "2024-02-01T00:00:00"
    (reset_account "2024-02-01T00:00:00" sample_holdings)
  = reset_account "2024-02-01T00:00:00" sample_holdings.
Proof.
  apply (reset_account_idempotent "2024-02-01T00:00:00"
           "2024-02-01T00:00:00" sample_holdings).
  reflexivity.
Defined.

(** C9 as stated fails: a reset on the 1st of February followed by a reset
    on the 2nd does not leave the state that the first reset alone
    leaves, since [createdAt] is overwritten. *)
Lemma reset_account_twice_differs :
  reset_account "2024-02-02T00:00:00"
    (reset_account "2024-02-01T00:00:00" sample_holdings)
  <> reset_account "2024-02-01T00:00:00" sample_holdings.
Proof.
  unfold reset_account. cbv zeta. rewrite insert_insert_eq.
  intros H. apply (f_equal (fun m : Accounts => m !! verify_token)) in H.
  rewrite !lookup_insert_eq in H. discriminate H.
Qed.

(** ** Quantities are not validated *)

Section Quantities.

Variable get_current_price : string -> Q.

(** A market buy of quantity zero is filled whenever a price is available,
    the cash is not negative and the ticker is not held with quantity
    zero. *)
Lemma zero_quantity_buy_filled now order account :
  order_type order = "market"%string ->
  order_side order = "buy"%string ->
  order_quantity order == 0 ->
  ~ get_current_price (order_ticker order) == 0 ->
  0 <= acct_cash account ->
  (forall i existing,
     find_position (order_ticker order) (acct_positions account)
       = Some (i, existing) -> ~ pos_quantity existing == 0) ->
  exists account' response,
    place_order_on get_current_price now order account
      = Continue (account', response) /\
    resp_status response = "filled"%string /\
    exists record,
      acct_orders account' = acct_orders account ++ [record] /\
      rec_quantity record = order_quantity order.
Proof.
  intros Htype Hside Hq Hprice Hcash Hheld.
  destruct (execute_buy_total order
              (apply_slippage (get_current_price (order_ticker order))
                 (order_side order)) account) as [a1 Hbuy].
  { rewrite Hq. unfold COMMISSION_PER_TRADE. lra. }
  { intros i existing Hfind. rewrite Hq.
    specialize (Hheld i existing Hfind). lra. }
  destruct (record_order now order
              (apply_slippage (get_current_price (order_ticker order))
                 (order_side order)) a1) as [account' response] eqn:Hrec.
  exists account', response. split.
  - apply place_order_on_Continue. split; [exact Hprice|].
    eexists _, a1. split; [apply determine_execution_price_market, Htype|].
    rewrite Hside at 1. cbn. auto.
  - apply record_order_account in Hrec
      as (_ & _ & (record & Horders & _ & _ & Hquantity & _) & Hstatus & _).
    split; [exact Hstatus|]. exists record.
    apply execute_buy_Continue in Hbuy as (_ & _ & <- & _). auto.
Qed.

(** A market sell of a negative quantity on a held ticker is filled
    whenever the price is positive and the held quantity is not below the
    requested one, and it takes cash away. *)
Lemma negative_quantity_sell_filled now order account i position :
  order_type order = "market"%string ->
  order_side order = "sell"%string ->
  order_quantity order < 0 ->
  0 < get_current_price (order_ticker order) ->
  find_position (order_ticker order) (acct_positions account)
    = Some (i, position) ->
  order_quantity order <= pos_quantity position ->
  exists account' response,
    place_order_on get_current_price now order account
      = Continue (account', response) /\
    resp_status response = "filled"%string /\
    acct_cash account' < acct_cash account.
Proof.
  intros Htype Hside Hq Hprice Hfind Hheld.
  set (p := apply_slippage (get_current_price (order_ticker order))
              (order_side order)).
  destruct (execute_sell_total order p account i position Hfind Hheld)
    as [a1 Hsell].
  destruct (record_order now order p a1) as [account' response] eqn:Hrec.
  exists account', response.
  assert (Hon : place_order_on get_current_price now order account
                = Continue (account', response)).
  { apply place_order_on_Continue. split; [lra|].
    exists p, a1. split; [apply determine_execution_price_market, Htype|].
    rewrite Hside at 1. cbn. auto. }
  split; [exact Hon|]. split; [eapply place_order_on_filled, Hon|].
  apply record_order_account in Hrec as (-> & _).
  apply execute_sell_Continue in Hsell as (_ & _ & _ & _ & -> & _).
  assert (0 < p) as Hp.
  { unfold p. rewrite Hside, apply_slippage_sell. lra. }
  unfold COMMISSION_PER_TRADE. nra.
Qed.

End Quantities.

(** C10.  [place_order] does not check that the quantity is positive: a
    market buy of quantity 0 at the available price 50 is filled from the
    sample account, and the account saved has one more order record, of
    quantity 0; a market sell of quantity -1 by the holder of 10 shares is
    filled, and the account saved has less cash than before. *)
Theorem quantity_is_not_validated :
  (order_quantity (market_buy 0) <= 0 /\
   exists account' response record,
     place_order quote_50 "2024-01-02T00:00:00" (market_buy 0)
       sample_accounts
     = (<[verify_token := account']> sample_accounts, inl response) /\
     resp_status response = "filled"%string /\
     acct_orders account' = acct_orders sample_account ++ [record] /\
     rec_quantity record = 0) /\
  (order_quantity (market_sell (-1)) <= 0 /\
   exists account' response,
     place_order quote_50 "2024-01-03T00:00:00" (market_sell (-1))
       sample_holdings
     = (<[verify_token := account']> sample_holdings, inl response) /\
     resp_status response = "filled"%string /\
     acct_cash account' < acct_cash sample_holding).
Proof.
  split; (split; [discriminate|]).
  - destruct (zero_quantity_buy_filled quote_50 "2024-01-02T00:00:00"
                (market_buy 0) sample_account)
      as (account' & response & Hon & Hstatus & record & Horders & Hq);
      try reflexivity; try discriminate.
    exists account', response, record.
    split; [|auto].
    apply (place_order_saves _ _ _ _ sample_account); [|exact Hon].
    vm_compute. reflexivity.
  - destruct (negative_quantity_sell_filled quote_50 "2024-01-03T00:00:00"
                (market_sell (-1)) sample_holding 0%nat
                (new_position "XYZ" 10 50.050))
      as (account' & response & Hon & Hstatus & Hcash);
      try reflexivity; try discriminate.
    exists account', response.
    split; [|auto].
    apply (place_order_saves _ _ _ _ sample_holding); [|exact Hon].
    vm_compute. reflexivity.
Qed.

(** ** Valuation *)

Section Valuation.

Variable get_current_price : string -> Q.

Lemma value_position_valued_as position :
  valued_as get_current_price position
    (value_position get_current_price position).1.
Proof.
  unfold valued_as, value_position. cbn. repeat (split; [reflexivity|]).
  eexists. split; [reflexivity|].
  destruct (Qltb 0 _) eqn:Hcost.
  - apply Qltb_lt in Hcost. split; [reflexivity|]. intros Hle. lra.
  - apply Qltb_ge in Hcost. split; [|reflexivity]. intros Hlt. lra.
Qed.

(** The loop visits every position once and adds its market value to the
    running total. *)
Lemma value_positions_spec positions total :
  Forall2 (valued_as get_current_price) positions
    (value_positions get_current_price positions total).1 /\
  (value_positions get_current_price positions total).2
    == total
       + Qsum ((fun position =>
                  pos_quantity position
                  * get_current_price (pos_ticker position))
               <$> positions).
Proof.
  revert total. induction positions as [|position rest IH]; intros total.
  - cbn. split; [constructor|]. ring.
  - cbn [value_positions].
    destruct (value_position _ position) as [position' market_value] eqn:Hv.
    specialize (IH (total + market_value)).
    destruct (value_positions _ rest _) as [rest' total'].
    cbn [fst snd] in *. destruct IH as [IHpos IHtotal]. split.
    + constructor; [|exact IHpos].
      pose proof (value_position_valued_as position) as H.
      rewrite Hv in H. exact H.
    + rewrite IHtotal. cbn [fmap list_fmap Qsum foldr].
      unfold value_position in Hv. injection Hv as _ <-.
      fold (Qsum ((fun position0 =>
                     pos_quantity position0
                     * get_current_price (pos_ticker position0))
                  <$> rest)). ring.
Qed.


End Valuation.



(** ** Average cost basis *)

Section AverageCost.

Import Binary64.
#[local] Open Scope float_scope.

Lemma double_find_position_insert ticker (positions : list Position) i
    position position' :
  find_position ticker positions = Some (i, position) ->
  pos_ticker position' = ticker ->
  find_position ticker (<[i := position']> positions) = Some (i, position').
Proof.
  intros (Hi & _ & Hfirst)%double_find_position_Some Hticker.
  apply double_find_position_Some. split; [|split; [exact Hticker|]].
  - apply list_lookup_insert_eq. eapply lookup_lt_Some, Hi.
  - intros j other Hj Hlt.
    rewrite list_lookup_insert_ne in Hj by lia. eauto.
Qed.

Lemma double_find_position_append ticker (positions : list Position)
    position' :
  find_position ticker positions = None ->
  pos_ticker position' = ticker ->
  find_position ticker (positions ++ [position'])
    = Some (length positions, position').
Proof.
  intros Hnone%double_find_position_None Hticker.
  apply double_find_position_Some. split; [|split; [exact Hticker|]].
  - rewrite lookup_app_r, Nat.sub_diag by lia. reflexivity.
  - intros j other Hj Hlt. rewrite lookup_app_l in Hj by exact Hlt.
    exact (proj1 (Forall_lookup _ _) Hnone j other Hj).
Qed.

(** One filled buy of a sequence: what is stored for the ticker is the
    update of what was stored by the fill reported. *)
Lemma double_place_order_on_buy ticker call account account' response :
  buy_on ticker call ->
  place_order_on (fun _ => call_market_price call) (call_now call)
    (call_order call) account = Continue (account', response) ->
  held ticker account' = average_update (held ticker account) (fill response)
  /\
  resp_filledQuantity response = Some (order_quantity (call_order call)) /\
  exists p,
    determine_execution_price (call_order call) (call_market_price call)
      = Continue p /\
    resp_filledPrice response = Some p.
Proof.
  intros [Hside Hticker]
    (_ & p & a1 & Hprice & Hexec & Hrec)%double_place_order_on_Continue.
  rewrite Hside in Hexec. cbn in Hexec.
  apply double_record_order in Hrec as (_ & Hpos & _ & Hfp & Hfq).
  split; [|split; [exact Hfq|eauto]].
  unfold held, fill. rewrite Hpos, Hfp, Hfq. cbn [default].
  apply double_execute_buy_Continue in Hexec as (_ & Ha1). cbv zeta in Ha1.
  rewrite Hticker in Ha1.
  destruct (find_position ticker (acct_positions account))
    as [[i existing]|] eqn:Hfind.
  - destruct Ha1 as [_ ->]. cbn [acct_positions set_cash_positions].
    erewrite double_find_position_insert; [reflexivity|exact Hfind|].
    cbn. eapply double_find_position_Some, Hfind.
  - rewrite Ha1. cbn [acct_positions set_cash_positions].
    rewrite double_find_position_append by (exact Hfind || reflexivity).
    reflexivity.
Qed.


End AverageCost.



(** * Further properties of the service *)

(** ** The price source *)

(** Runs the loop of [get_current_price] on the three attempts. *)
Ltac run_attempts feed ticker :=
  unfold PriceFeed.get_current_price, PriceFeed.max_retries;
  cbn [PriceFeed.attempts_from Nat.ltb Nat.leb Nat.sub];
  destruct (PriceFeed.try_attempt (feed ticker 0%nat)) eqn:?;
  destruct (PriceFeed.try_attempt (feed ticker 1%nat)) eqn:?;
  destruct (PriceFeed.try_attempt (feed ticker 2%nat)) eqn:?;
  cbn [PriceFeed.sleeps fst snd].

Lemma try_attempt_data (a : PriceFeed.Attempt) closes price :
  (PriceFeed.history_1d a = PriceFeed.HistoryCloses closes /\
   last closes = Some price) \/
  (PriceFeed.history_1d a = PriceFeed.HistoryCloses [] /\
   PriceFeed.history_5d a = PriceFeed.HistoryCloses closes /\
   last closes = Some price) ->
  PriceFeed.try_attempt a = PriceFeed.Fetched price.
Proof.
  unfold PriceFeed.try_attempt.
  intros [[-> ->] | (-> & -> & ->)]; reflexivity.
Qed.

(** X1.  [get_current_price] returns the last close of the first of its
    three attempts that has data -- the last close of today's history
    when that is not empty, whatever the five-day history holds, and the
    last close of the five-day history when today's is empty -- after
    having slept once for each attempt before it. *)
Theorem get_current_price_first_data feed ticker k closes price :
  (k < PriceFeed.max_retries)%nat ->
  (forall j p,
     (j < k)%nat ->
     PriceFeed.try_attempt (feed ticker j) <> PriceFeed.Fetched p) ->
  (PriceFeed.history_1d (feed ticker k) = PriceFeed.HistoryCloses closes /\
   last closes = Some price) \/
  (PriceFeed.history_1d (feed ticker k) = PriceFeed.HistoryCloses [] /\
   PriceFeed.history_5d (feed ticker k) = PriceFeed.HistoryCloses closes /\
   last closes = Some price) ->
  exists events,
    PriceFeed.get_current_price feed ticker = (price, events) /\
    PriceFeed.sleeps events = k.
Proof.
  intros Hk Hbefore Hdata%try_attempt_data.
  assert (H0 : (0 < k)%nat -> forall p,
             PriceFeed.try_attempt (feed ticker 0%nat)
             <> PriceFeed.Fetched p) by (intros; apply Hbefore; lia).
  assert (H1 : (1 < k)%nat -> forall p,
             PriceFeed.try_attempt (feed ticker 1%nat)
             <> PriceFeed.Fetched p) by (intros; apply Hbefore; lia).
  unfold PriceFeed.max_retries in Hk.
  destruct k as [|[|[|k]]]; [| | |lia]; run_attempts feed ticker;
    try (exfalso; eapply H0; [lia|reflexivity]);
    try (exfalso; eapply H1; [lia|reflexivity]);
    try discriminate Hdata;
    injection Hdata as ->; eexists; split; reflexivity.
Qed.

(** A feed with data at the third attempt only: two sleeps, then 50. *)
Lemma get_current_price_first_data_witness :
  exists events,
    PriceFeed.get_current_price PriceFeed.sample_feed "XYZ" = (50, events) /\
    PriceFeed.sleeps events = 2%nat.
Proof.
  apply (get_current_price_first_data PriceFeed.sample_feed "XYZ" 2
           [47; 48; 50] 50).
  - unfold PriceFeed.max_retries. lia.
  - intros j p Hj. destruct j as [|[|j]]; [discriminate..|lia].
  - right. repeat split; reflexivity.
Defined.

(** X2.  When none of the three attempts has data, be it that the service
    raised or that it answered with empty histories, [get_current_price]
    returns 0 after exactly two sleeps: it does not raise, and it does not
    sleep after the last attempt. *)
Theorem get_current_price_unavailable feed ticker :
  (forall j p,
     (j < PriceFeed.max_retries)%nat ->
     PriceFeed.try_attempt (feed ticker j) <> PriceFeed.Fetched p) ->
  exists events,
    PriceFeed.get_current_price feed ticker = (0, events) /\
    PriceFeed.sleeps events = 2%nat.
Proof.
  unfold PriceFeed.max_retries. intros Hnone.
  run_attempts feed ticker;
    try (exfalso; eapply (Hnone 0%nat); [lia|eassumption]);
    try (exfalso; eapply (Hnone 1%nat); [lia|eassumption]);
    try (exfalso; eapply (Hnone 2%nat); [lia|eassumption]);
    eexists; split; reflexivity.
Qed.

Lemma get_current_price_unavailable_witness :
  exists events,
    PriceFeed.get_current_price PriceFeed.dead_feed "XYZ" = (0, events) /\
    PriceFeed.sleeps events = 2%nat.
Proof.
  apply (get_current_price_unavailable PriceFeed.dead_feed "XYZ").
  intros j p _. discriminate.
Defined.

(** X3.  [get_current_price] makes at most three attempts and sleeps at
    most twice: two feeds that agree on the first three attempts give the
    same price and the same events. *)
Theorem get_current_price_three_attempts feed feed' ticker :
  (forall j,
     (j < PriceFeed.max_retries)%nat -> feed ticker j = feed' ticker j) ->
  PriceFeed.get_current_price feed ticker
    = PriceFeed.get_current_price feed' ticker /\
  (PriceFeed.sleeps (PriceFeed.get_current_price feed ticker).2 <= 2)%nat.
Proof.
  unfold PriceFeed.max_retries. intros Hagree. split.
  - unfold PriceFeed.get_current_price, PriceFeed.max_retries.
    cbn [PriceFeed.attempts_from Nat.ltb Nat.leb Nat.sub].
    rewrite <- !Hagree by lia. reflexivity.
  - run_attempts feed ticker; cbn; lia.
Qed.

Lemma get_current_price_three_attempts_witness :
  PriceFeed.get_current_price PriceFeed.sample_feed "XYZ"
    = PriceFeed.get_current_price
        (fun ticker attempt =>
           if (attempt <? 3)%nat then PriceFeed.sample_feed ticker attempt
           else PriceFeed.dead_feed ticker attempt) "XYZ" /\
  (PriceFeed.sleeps
     (PriceFeed.get_current_price PriceFeed.sample_feed "XYZ").2 <= 2)%nat.
Proof.
  apply (get_current_price_three_attempts PriceFeed.sample_feed
           (fun ticker attempt =>
              if (attempt <? 3)%nat then PriceFeed.sample_feed ticker attempt
              else PriceFeed.dead_feed ticker attempt) "XYZ").
  intros j Hj. unfold PriceFeed.max_retries in Hj.
  destruct j as [|[|[|j]]]; [reflexivity..|lia].
Defined.

(** ** Exceptions, rejections and fills of [place_order]

    Which of its outcomes [place_order] takes is decided by comparisons
    between computed numbers, so these properties are stated on the code
    in double precision. *)

Section MachineOutcomes.

Import Binary64.
#[local] Open Scope float_scope.

Variable get_current_price : string -> float.

Lemma double_determine_execution_price_no_Raise order market_price e :
  determine_execution_price order market_price <> Raise e.
Proof.
  unfold determine_execution_price.
  destruct (String.eqb _ _); [discriminate|].
  destruct (order_limitPrice order); [|discriminate].
  destruct (_ && _); [discriminate|]. destruct (_ && _); discriminate.
Qed.

Lemma double_determine_execution_price_Return order market_price r :
  determine_execution_price order market_price = Return r <->
  order_type order <> "market"%string /\
  ((order_limitPrice order = None /\
    r = rejected "Limit price required for limit orders") \/
   (exists limitPrice,
      order_limitPrice order = Some limitPrice /\
      ~ (order_side order = "buy"%string
         /\ (market_price <=? limitPrice) = true) /\
      ~ (order_side order = "sell"%string
         /\ (limitPrice <=? market_price) = true) /\
      r = rejected "Limit price not favorable for immediate execution")).
Proof.
  unfold determine_execution_price.
  destruct (String.eqb (order_type order) "market") eqn:Htype.
  { apply String.eqb_eq in Htype. split; [discriminate|].
    intros [H _]. contradiction. }
  apply String.eqb_neq in Htype.
  destruct (order_limitPrice order) as [limitPrice|].
  2: { split.
       - intros [= <-]. auto.
       - intros (_ & [[_ ->] | (lp & H & _)]);
           [reflexivity|discriminate H]. }
  destruct (String.eqb (order_side order) "buy"
            && (market_price <=? limitPrice)) eqn:Hbuy.
  { apply andb_true_iff in Hbuy as [Hside%String.eqb_eq Hle].
    split; [discriminate|].
    intros (_ & [[H _] | (lp & [= <-] & Hnot & _)]); [discriminate H|].
    exfalso. apply Hnot. auto. }
  destruct (String.eqb (order_side order) "sell"
            && (limitPrice <=? market_price)) eqn:Hsell.
  { apply andb_true_iff in Hsell as [Hside%String.eqb_eq Hle].
    split; [discriminate|].
    intros (_ & [[H _] | (lp & [= <-] & _ & Hnot & _)]); [discriminate H|].
    exfalso. apply Hnot. auto. }
  split.
  - intros [= <-]. split; [exact Htype|]. right. exists limitPrice.
    split; [reflexivity|]. split; [|split; [|reflexivity]].
    + intros [Hside%String.eqb_eq Hle].
      rewrite Hside, Hle in Hbuy. discriminate Hbuy.
    + intros [Hside%String.eqb_eq Hle].
      rewrite Hside, Hle in Hsell. discriminate Hsell.
  - intros (_ & [[H _] | (lp & _ & _ & _ & ->)]);
      [discriminate H|reflexivity].
Qed.

Lemma double_execute_buy_Return order p account r :
  execute_buy order p account = Return r <->
  (acct_cash account <? order_quantity order * p + COMMISSION_PER_TRADE)
    = true /\
  r = rejected "Insufficient funds".
Proof.
  unfold execute_buy. cbv zeta.
  destruct (_ <? _).
  - split; [intros [= <-]; auto | intros [_ ->]; reflexivity].
  - split; [|intros [H _]; discriminate H].
    destruct (find_position _ _) as [[i existing]|]; [|discriminate].
    destruct (_ =? 0); discriminate.
Qed.

(** The buy branch raises exactly when the cost-basis update divides by a
    total quantity of zero. *)
Lemma double_execute_buy_Raise order p account e :
  execute_buy order p account = Raise e <->
  e = ZeroDivisionError /\
  (acct_cash account <? order_quantity order * p + COMMISSION_PER_TRADE)
    = false /\
  exists i existing,
    find_position (order_ticker order) (acct_positions account)
      = Some (i, existing) /\
    (pos_quantity existing + order_quantity order =? 0) = true.
Proof.
  unfold execute_buy. cbv zeta.
  destruct (_ <? _).
  { split; [discriminate | intros (_ & H & _); discriminate H]. }
  destruct (find_position _ _) as [[i existing]|].
  - destruct (_ =? 0) eqn:Hz.
    + split; [intros [= <-]; eauto 6 | intros (-> & _); reflexivity].
    + split; [discriminate|].
      intros (_ & _ & i' & existing' & [= <- <-] & Hzero). congruence.
  - split; [discriminate|]. intros (_ & _ & i & existing & H & _).
    discriminate H.
Qed.

Lemma double_execute_sell_Return order p account r :
  execute_sell order p account = Return r <->
  (find_position (order_ticker order) (acct_positions account) = None /\
   r = rejected "No position to sell") \/
  (exists i position,
     find_position (order_ticker order) (acct_positions account)
       = Some (i, position) /\
     (pos_quantity position <? order_quantity order) = true /\
     r = rejected "Insufficient shares").
Proof.
  unfold execute_sell.
  destruct (find_position _ _) as [[i position]|] eqn:Hfind.
  2: { split.
       - intros [= <-]. auto.
       - intros [[_ ->] | (i & position & H & _)];
           [reflexivity|discriminate H]. }
  destruct (_ <? _) eqn:Hq.
  - split.
    + intros [= <-]. right. eauto.
    + intros [[H _] | (i' & position' & _ & _ & ->)];
        [discriminate H|reflexivity].
  - cbv zeta. split.
    + destruct (_ =? 0); [|discriminate].
      destruct (list_remove _ _ _); discriminate.
    + intros [[H _] | (i' & position' & [= <- <-] & Hlt & _)];
        [discriminate H|congruence].
Qed.

(** The sell branch never raises: [positions.remove(position)] always
    finds the position. *)
Lemma double_execute_sell_no_Raise order p account e :
  execute_sell order p account <> Raise e.
Proof.
  intros H.
  destruct (find_position (order_ticker order) (acct_positions account))
    as [[i position]|] eqn:Hfind.
  - destruct (pos_quantity position <? order_quantity order) eqn:Hq.
    + assert (execute_sell order p account
              = Return (rejected "Insufficient shares")) as H'
        by (apply double_execute_sell_Return; right; eauto).
      congruence.
    + assert (exists a1, execute_sell order p account = Continue a1)
        as [a1 H'] by (eexists; apply double_execute_sell_Continue; eauto).
      congruence.
  - assert (execute_sell order p account
            = Return (rejected "No position to sell")) as H'
      by (apply double_execute_sell_Return; auto).
    congruence.
Qed.

(** The outcome of [place_order_on] from the outcomes of its stages. *)
Lemma double_place_order_on_stages now order account :
  place_order_on get_current_price now order account =
  let market_price := get_current_price (order_ticker order) in
  if market_price =? 0 then
    Return (rejected
              ("Unable to fetch price for " +:+ order_ticker order)%string)
  else
    match determine_execution_price order market_price with
    | Continue p =>
        match (if String.eqb (order_side order) "buy"
               then execute_buy order p account
               else execute_sell order p account) with
        | Continue account1 => Continue (record_order now order p account1)
        | Return r => Return r
        | Raise e => Raise e
        end
    | Return r => Return r
    | Raise e => Raise e
    end.
Proof.
  unfold place_order_on. cbv zeta.
  destruct (_ =? 0); [reflexivity|].
  destruct (determine_execution_price _ _); cbn; [|reflexivity..].
  destruct (if String.eqb _ _ then _ else _); reflexivity.
Qed.

Lemma double_place_order_on_Raise now order account e :
  place_order_on get_current_price now order account = Raise e <->
  e = ZeroDivisionError /\
  (get_current_price (order_ticker order) =? 0) = false /\
  order_side order = "buy"%string /\
  exists p i existing,
    determine_execution_price order
      (get_current_price (order_ticker order)) = Continue p /\
    (acct_cash account <? order_quantity order * p + COMMISSION_PER_TRADE)
      = false /\
    find_position (order_ticker order) (acct_positions account)
      = Some (i, existing) /\
    (pos_quantity existing + order_quantity order =? 0) = true.
Proof.
  rewrite double_place_order_on_stages. cbv zeta.
  destruct (_ =? 0) eqn:Hprice.
  { split; [discriminate | intros (_ & H & _); discriminate H]. }
  destruct (determine_execution_price _ _) as [p| |e'] eqn:Hdet.
  - destruct (String.eqb (order_side order) "buy") eqn:Hside.
    + apply String.eqb_eq in Hside.
      assert (Hiff :
        execute_buy order p account = Raise e <->
        e = ZeroDivisionError /\ false = false /\
        order_side order = "buy"%string /\
        exists p' i existing,
          Continue p = Continue p' /\
          (acct_cash account
             <? order_quantity order * p' + COMMISSION_PER_TRADE) = false /\
          find_position (order_ticker order) (acct_positions account)
            = Some (i, existing) /\
          (pos_quantity existing + order_quantity order =? 0) = true).
      { rewrite double_execute_buy_Raise. split.
        - intros (-> & Hcash & i & existing & Hfind & Hz). eauto 12.
        - intros (-> & _ & _ & p' & i & existing & [= <-] & Hcash & H).
          eauto 6. }
      rewrite <- Hiff.
      destruct (execute_buy order p account); split; congruence.
    + apply String.eqb_neq in Hside.
      destruct (execute_sell order p account) as [a1| |e'] eqn:Hsell.
      * split; [discriminate|]. intros (_ & _ & Hbuy & _). contradiction.
      * split; [discriminate|]. intros (_ & _ & Hbuy & _). contradiction.
      * exfalso. exact (double_execute_sell_no_Raise _ _ _ _ Hsell).
  - split; [discriminate|].
    intros (_ & _ & _ & p & i & existing & H & _). discriminate H.
  - exfalso. exact (double_determine_execution_price_no_Raise _ _ _ Hdet).
Qed.

(** X4.  [place_order] ends with an exception in exactly two situations,
    and in both the accounts file is left as it was: the account of the
    user does not exist ([HTTPException] 404), or a buy that passed the
    price and funds checks meets a position of the ticker whose quantity
    plus the bought quantity is zero ([ZeroDivisionError]).  In
    particular it never raises [ValueError]. *)
Theorem place_order_raises now order (accounts accounts' : Accounts) e :
  place_order get_current_price now order accounts = (accounts', inr e) <->
  accounts' = accounts /\
  ((accounts !! verify_token = None /\
    e = HTTPException 404 "Account not found") \/
   (e = ZeroDivisionError /\
    (get_current_price (order_ticker order) =? 0) = false /\
    order_side order = "buy"%string /\
    exists account p i existing,
      accounts !! verify_token = Some account /\
      determine_execution_price order
        (get_current_price (order_ticker order)) = Continue p /\
      (acct_cash account
         <? order_quantity order * p + COMMISSION_PER_TRADE) = false /\
      find_position (order_ticker order) (acct_positions account)
        = Some (i, existing) /\
      (pos_quantity existing + order_quantity order =? 0) = true)).
Proof.
  unfold place_order. cbv zeta.
  destruct (accounts !! verify_token) as [account|] eqn:Hacc.
  - destruct (place_order_on _ _ _ _) as [[a' r]|r|e'] eqn:Hon.
    + split; [discriminate|].
      intros (_ & [[H _] | (-> & Hp & Hside & a & p & i & x & [= <-] & H)]);
        [discriminate H|].
      assert (place_order_on get_current_price now order account
              = Raise ZeroDivisionError) as Hraise
        by (apply double_place_order_on_Raise; eauto 10).
      congruence.
    + split; [discriminate|].
      intros (_ & [[H _] | (-> & Hp & Hside & a & p & i & x & [= <-] & H)]);
        [discriminate H|].
      assert (place_order_on get_current_price now order account
              = Raise ZeroDivisionError) as Hraise
        by (apply double_place_order_on_Raise; eauto 10).
      congruence.
    + apply double_place_order_on_Raise in Hon
        as (-> & Hp & Hside & p & i & x & H).
      split.
      * intros [= <- <-]. split; [reflexivity|]. right.
        repeat (split; [done|]). exists account, p, i, x. tauto.
      * intros (-> & [[H' _] | (-> & _)]); [discriminate H'|reflexivity].
  - split.
    + intros [= <- <-]. auto.
    + intros (-> & [[_ ->] | (_ & _ & _ & a & p & i & x & H & _)]);
        [reflexivity|discriminate H].
Qed.

(** X19.  [place_order] fills an order exactly when a price is available,
    the price stage gives an execution price and the execution branch
    goes through: for a buy, the test [cash < quantity * price +
    commission] is false and the ticker is not held with a quantity that
    the bought quantity brings to zero; for any other side, the ticker is
    held and the test [held quantity < requested quantity] is false.
    There are no partial fills. *)
Theorem fill_conditions now order account :
  let market_price := get_current_price (order_ticker order) in
  (exists account' response,
     place_order_on get_current_price now order account
       = Continue (account', response)) <->
  (market_price =? 0) = false /\
  exists p,
    determine_execution_price order market_price = Continue p /\
    ((order_side order = "buy"%string /\
      (acct_cash account
         <? order_quantity order * p + COMMISSION_PER_TRADE) = false /\
      forall i existing,
        find_position (order_ticker order) (acct_positions account)
          = Some (i, existing) ->
        (pos_quantity existing + order_quantity order =? 0) = false) \/
     (order_side order <> "buy"%string /\
      exists i position,
        find_position (order_ticker order) (acct_positions account)
          = Some (i, position) /\
        (pos_quantity position <? order_quantity order) = false)).
Proof.
  intros market_price. split.
  - intros (account' & response
            & (Hprice & p & a1 & Hdet & Hexec & _)
              %double_place_order_on_Continue).
    split; [exact Hprice|]. exists p. split; [exact Hdet|].
    destruct (String.eqb (order_side order) "buy") eqn:Hside.
    + apply String.eqb_eq in Hside. left. split; [exact Hside|].
      apply double_execute_buy_Continue in Hexec as (Hcash & Hpos).
      split; [exact Hcash|]. intros i existing Hfind. cbv zeta in Hpos.
      rewrite Hfind in Hpos. tauto.
    + apply String.eqb_neq in Hside. right. split; [exact Hside|].
      apply double_execute_sell_Continue in Hexec
        as (i & position & Hfind & Hq & _).
      exists i, position. auto.
  - intros (Hprice & p & Hdet & Hexec).
    apply (double_place_order_on_filled get_current_price now order account
             p Hprice Hdet).
    destruct Hexec
      as [(Hside & Hcash & Hdiv) | (Hside & i & position & Hfind & Hq)].
    + rewrite Hside. cbn.
      destruct (find_position (order_ticker order)
                  (acct_positions account)) as [[i existing]|] eqn:Hfind.
      * eexists. apply double_execute_buy_Continue.
        split; [exact Hcash|]. cbv zeta. rewrite Hfind.
        split; [eapply Hdiv; reflexivity | reflexivity].
      * eexists. apply double_execute_buy_Continue.
        split; [exact Hcash|]. cbv zeta. rewrite Hfind. reflexivity.
    + apply String.eqb_neq in Hside. rewrite Hside.
      eexists. apply double_execute_sell_Continue. eauto.
Qed.

(** X18.  [place_order] rejects an order in exactly six situations, each
    with its own message, checked in this order: no price for the ticker;
    a limit order without limit price; a limit price that is not
    favorable (a buy needs [limitPrice >= marketPrice], a sell
    [limitPrice <= marketPrice], and any other side never is); a buy for
    which [cash < quantity * price + commission]; a sell of a ticker that
    is not held; a sell for which [held quantity < requested quantity]. *)
Theorem rejection_reasons now order account response :
  let market_price := get_current_price (order_ticker order) in
  let priced :=
    exists p, determine_execution_price order market_price = Continue p in
  place_order_on get_current_price now order account = Return response <->
  ((market_price =? 0) = true /\
   response
   = rejected ("Unable to fetch price for " +:+ order_ticker order)%string)
  \/
  ((market_price =? 0) = false /\
   order_type order <> "market"%string /\
   order_limitPrice order = None /\
   response = rejected "Limit price required for limit orders") \/
  ((market_price =? 0) = false /\
   order_type order <> "market"%string /\
   (exists limitPrice,
      order_limitPrice order = Some limitPrice /\
      ~ (order_side order = "buy"%string
         /\ (market_price <=? limitPrice) = true) /\
      ~ (order_side order = "sell"%string
         /\ (limitPrice <=? market_price) = true)) /\
   response
   = rejected "Limit price not favorable for immediate execution") \/
  ((market_price =? 0) = false /\
   order_side order = "buy"%string /\
   (exists p,
      determine_execution_price order market_price = Continue p /\
      (acct_cash account
         <? order_quantity order * p + COMMISSION_PER_TRADE) = true) /\
   response = rejected "Insufficient funds") \/
  ((market_price =? 0) = false /\
   order_side order <> "buy"%string /\
   priced /\
   find_position (order_ticker order) (acct_positions account) = None /\
   response = rejected "No position to sell") \/
  ((market_price =? 0) = false /\
   order_side order <> "buy"%string /\
   priced /\
   (exists i position,
      find_position (order_ticker order) (acct_positions account)
        = Some (i, position) /\
      (pos_quantity position <? order_quantity order) = true) /\
   response = rejected "Insufficient shares").
Proof.
  intros market_price priced. unfold priced.
  rewrite double_place_order_on_stages. cbv zeta. fold market_price.
  destruct (market_price =? 0) eqn:Hprice.
  { split.
    - intros [= <-]. auto.
    - intros [[_ ->] | [H | [H | [H | [H | H]]]]];
        [reflexivity|destruct H as [H _]; discriminate H..]. }
  destruct (determine_execution_price order market_price)
    as [p|r|e] eqn:Hdet.
  - (* an execution price was determined *)
    assert (Hno : forall r,
               determine_execution_price order market_price <> Return r)
      by (intros r; rewrite Hdet; discriminate).
    assert (Hno2 :
      ~ (order_type order <> "market"%string /\
         order_limitPrice order = None)).
    { intros [Ht Hl].
      eapply Hno, double_determine_execution_price_Return. eauto. }
    assert (Hno3 :
      ~ (order_type order <> "market"%string /\
         exists limitPrice,
           order_limitPrice order = Some limitPrice /\
           ~ (order_side order = "buy"%string
              /\ (market_price <=? limitPrice) = true) /\
           ~ (order_side order = "sell"%string
              /\ (limitPrice <=? market_price) = true))).
    { intros (Ht & lp & Hl & Hb & Hs).
      eapply Hno, double_determine_execution_price_Return. eauto 10. }
    destruct (String.eqb (order_side order) "buy") eqn:Hside.
    + apply String.eqb_eq in Hside.
      destruct (execute_buy order p account) as [a1|r|e] eqn:Hbuy.
      * split; [discriminate|].
        intros [[H _] | [H | [H | [H | [H | H]]]]]; exfalso;
          try (discriminate H); try tauto.
        destruct H as (_ & _ & (p' & [= <-] & Hlt) & _).
        apply double_execute_buy_Continue in Hbuy as [Hcash _]. congruence.
      * apply double_execute_buy_Return in Hbuy as [Hlt ->]. split.
        -- intros [= <-]. do 3 right. left. eauto 10.
        -- intros [[H _] | [H | [H | [H | [H | H]]]]];
             try (discriminate H); try (exfalso; tauto).
           destruct H as (_ & _ & _ & ->). reflexivity.
      * split; [discriminate|].
        intros [[H _] | [H | [H | [H | [H | H]]]]]; exfalso;
          try (discriminate H); try tauto.
        destruct H as (_ & _ & (p' & [= <-] & Hlt) & _).
        apply double_execute_buy_Raise in Hbuy as (_ & Hcash & _).
        congruence.
    + apply String.eqb_neq in Hside.
      destruct (execute_sell order p account) as [a1|r|e] eqn:Hsell.
      * split; [discriminate|].
        apply double_execute_sell_Continue in Hsell
          as (i & position & Hfind & Hq & _).
        intros [[H _] | [H | [H | [H | [H | H]]]]]; exfalso;
          try (discriminate H); try tauto.
        -- destruct H as (_ & _ & _ & H & _). congruence.
        -- destruct H as (_ & _ & _ & (i' & position' & H & Hlt) & _).
           congruence.
      * split.
        -- intros [= <-].
           apply double_execute_sell_Return in Hsell
             as [[Hfind ->] | (i & position & Hfind & Hlt & ->)].
           ++ do 4 right. left. eauto 10.
           ++ do 5 right. eauto 12.
        -- apply double_execute_sell_Return in Hsell
             as [[Hfind ->] | (i & position & Hfind & Hlt & ->)];
           intros [[H _] | [H | [H | [H | [H | H]]]]];
             try (discriminate H); try (exfalso; tauto).
           ++ destruct H as (_ & _ & _ & _ & ->). reflexivity.
           ++ destruct H as (_ & _ & _ & (i' & position' & H & _) & _).
              congruence.
           ++ destruct H as (_ & _ & _ & H & _). congruence.
           ++ destruct H as (_ & _ & _ & _ & ->). reflexivity.
      * exfalso. exact (double_execute_sell_no_Raise _ _ _ _ Hsell).
  - (* the price stage returned *)
    pose proof (proj1 (double_determine_execution_price_Return _ _ _) Hdet)
      as (Htype & Hwhy).
    split.
    + intros [= <-].
      destruct Hwhy as [[Hl ->] | (lp & Hl & Hb & Hs & ->)].
      * right. left. auto.
      * do 2 right. left. eauto 10.
    + intros [[H _] | [H | [H | [H | [H | H]]]]];
        try (discriminate H).
      * destruct H as (_ & Ht & Hl & ->).
        destruct Hwhy as [[_ ->] | (lp & Hl' & _)];
          [reflexivity|congruence].
      * destruct H as (_ & Ht & (lp & Hl & Hb & Hs) & ->).
        destruct Hwhy as [[Hl' _] | (lp' & _ & _ & _ & ->)];
          [congruence|reflexivity].
      * destruct H as (_ & _ & (p & H & _) & _). discriminate H.
      * destruct H as (_ & _ & (p & H) & _). discriminate H.
      * destruct H as (_ & _ & (p & H) & _). discriminate H.
  - exfalso. exact (double_determine_execution_price_no_Raise _ _ _ Hdet).
Qed.

End MachineOutcomes.

(** The holder of -3 shares whose cash is 0.8999999999999999 and who buys
    3 shares at a limit of 0.3 passes the funds check, since [3 * 0.3] is
    that same double, and is answered with a [ZeroDivisionError]; nothing
    is saved. *)
Lemma place_order_raises_witness :
  Binary64.place_order (Binary64.quote 0.25) "2024-01-03T00:00:00"
    (Binary64.limit_buy 3 0.3)
    (Binary64.accounts_with 0.8999999999999999
       [Binary64.new_position "XYZ" (-3) 0.3])
  = (Binary64.accounts_with 0.8999999999999999
       [Binary64.new_position "XYZ" (-3) 0.3],
     inr ZeroDivisionError).
Proof.
  apply (place_order_raises (Binary64.quote 0.25) "2024-01-03T00:00:00"
           (Binary64.limit_buy 3 0.3)).
  split; [reflexivity|]. right. split; [reflexivity|].
  split; [reflexivity|]. split; [reflexivity|].
  exists (Binary64.account_with 0.8999999999999999
            [Binary64.new_position "XYZ" (-3) 0.3]),
    0.3%float, 0%nat, (Binary64.new_position "XYZ" (-3) 0.3).
  split; [vm_compute; reflexivity|]. split; [reflexivity|].
  split; [reflexivity|]. split; reflexivity.
Defined.

(** A limit buy of 3 at 0.3 is filled from a cash of 0.8999999999999999,
    the double that [3 * 0.3] gives. *)
Lemma fill_conditions_witness :
  exists account' response,
    Binary64.place_order_on (Binary64.quote 0.25) "2024-01-02T00:00:00"
      (Binary64.limit_buy 3 0.3)
      (Binary64.account_with 0.8999999999999999 [])
    = Binary64.Continue (account', response).
Proof.
  apply (fill_conditions (Binary64.quote 0.25) "2024-01-02T00:00:00"
           (Binary64.limit_buy 3 0.3)
           (Binary64.account_with 0.8999999999999999 [])).
  split; [reflexivity|]. exists 0.3%float. split; [reflexivity|]. left.
  split; [reflexivity|]. split; [reflexivity|].
  intros i existing Hfind. discriminate Hfind.
Defined.

(** A market buy of 5 shares at 1.1 costs 5.505500000000001 and is
    rejected from a cash of 5.5055000000000005; the holder of 10 shares
    cannot sell 20. *)
Lemma rejection_reasons_witness :
  Binary64.place_order_on (Binary64.quote 1.1) "2024-01-03T00:00:00"
    (Binary64.market_buy 5) (Binary64.account_with 5.5055000000000005 [])
  = Binary64.Return (Binary64.rejected "Insufficient funds") /\
  Binary64.place_order_on (Binary64.quote 60) "2024-01-03T00:00:00"
    (Binary64.market_sell 20)
    (Binary64.account_with 100000 [Binary64.new_position "XYZ" 10 50.05])
  = Binary64.Return (Binary64.rejected "Insufficient shares").
Proof.
  split.
  - apply (rejection_reasons (Binary64.quote 1.1) "2024-01-03T00:00:00"
             (Binary64.market_buy 5)
             (Binary64.account_with 5.5055000000000005 [])).
    do 3 right. left. split; [reflexivity|]. split; [reflexivity|].
    split; [|reflexivity].
    exists (Binary64.apply_slippage 1.1 "buy"). split; reflexivity.
  - apply (rejection_reasons (Binary64.quote 60) "2024-01-03T00:00:00"
             (Binary64.market_sell 20)
             (Binary64.account_with 100000
                [Binary64.new_position "XYZ" 10 50.05])).
    do 5 right. split; [reflexivity|]. split; [discriminate|].
    split; [eexists; reflexivity|]. split; [|reflexivity].
    exists 0%nat, (Binary64.new_position "XYZ" 10 50.05).
    split; reflexivity.
Defined.

(** ** What [place_order] leaves alone, and the order history *)

Lemma execute_buy_frame order p account account1 :
  execute_buy order p account = Continue account1 ->
  acct_userId account1 = acct_userId account /\
  acct_createdAt account1 = acct_createdAt account /\
  acct_orders account1 = acct_orders account /\
  acct_totalValue account1 = acct_totalValue account /\
  acct_totalPL account1 = acct_totalPL account /\
  acct_totalPLPercent account1 = acct_totalPLPercent account.
Proof.
  unfold execute_buy. cbv zeta.
  destruct (Qltb _ _); [discriminate|].
  destruct (find_position _ _) as [[i existing]|].
  - destruct (Qeq_bool _ 0); [discriminate|].
    intros [= <-]. cbn. auto 10.
  - intros [= <-]. cbn. auto 10.
Qed.

Lemma execute_sell_frame order p account account1 :
  execute_sell order p account = Continue account1 ->
  acct_userId account1 = acct_userId account /\
  acct_createdAt account1 = acct_createdAt account /\
  acct_orders account1 = acct_orders account /\
  acct_totalValue account1 = acct_totalValue account /\
  acct_totalPL account1 = acct_totalPL account /\
  acct_totalPLPercent account1 = acct_totalPLPercent account.
Proof.
  unfold execute_sell. cbv zeta.
  destruct (find_position _ _) as [[i position]|]; [|discriminate].
  destruct (Qltb _ _); [discriminate|].
  destruct (Qeq_bool _ 0).
  - destruct (list_remove _ _); [|discriminate].
    intros [= <-]. cbn. auto 10.
  - intros [= <-]. cbn. auto 10.
Qed.

Section History.

Variable get_current_price : string -> Q.

(** The account a filled call saves: the account the execution branch
    left, with one record appended. *)
Lemma place_order_on_record now order account account' response :
  place_order_on get_current_price now order account
    = Continue (account', response) ->
  exists p,
    resp_filledPrice response = Some p /\
    resp_filledQuantity response = Some (order_quantity order) /\
    resp_orderId response
      = ("order_" +:+ pretty (length (acct_orders account) + 1)%nat)%string /\
    acct_orders account' =
      acct_orders account ++
      [ {| rec_orderId := resp_orderId response;
           rec_ticker := order_ticker order;
           rec_type := order_type order;
           rec_side := order_side order;
           rec_quantity := order_quantity order;
           rec_filledPrice := p;
           rec_filledQuantity := order_quantity order;
           rec_status := "filled";
           rec_timestamp := now |} ] /\
    acct_userId account' = acct_userId account /\
    acct_createdAt account' = acct_createdAt account /\
    acct_totalValue account' = acct_totalValue account /\
    acct_totalPL account' = acct_totalPL account /\
    acct_totalPLPercent account' = acct_totalPLPercent account.
Proof.
  intros (_ & p & a1 & _ & Hexec & [= <- <-])%place_order_on_Continue.
  assert (acct_userId a1 = acct_userId account /\
          acct_createdAt a1 = acct_createdAt account /\
          acct_orders a1 = acct_orders account /\
          acct_totalValue a1 = acct_totalValue account /\
          acct_totalPL a1 = acct_totalPL account /\
          acct_totalPLPercent a1 = acct_totalPLPercent account)
    as (Hid & Hcreated & Horders & Htv & Hpl & Hpct).
  { destruct (String.eqb _ _);
      [eapply execute_buy_frame|eapply execute_sell_frame]; exact Hexec. }
  exists p. cbn. unfold next_order_id.
  rewrite Horders, Hid, Hcreated, Htv, Hpl, Hpct. auto 10.
Qed.

(** X5.  [place_order] only ever touches the account of the calling user:
    the accounts of all other users are as before, no account is created
    or deleted, and in the account of the user the user id, the creation
    timestamp and the valuation totals are as before, whatever the
    outcome. *)
Theorem place_order_frame now order (accounts accounts' : Accounts) out :
  place_order get_current_price now order accounts = (accounts', out) ->
  (forall user_id,
     user_id <> verify_token -> accounts' !! user_id = accounts !! user_id) /\
  dom accounts' = dom accounts /\
  (forall account,
     accounts !! verify_token = Some account ->
     exists account',
       accounts' !! verify_token = Some account' /\
       acct_userId account' = acct_userId account /\
       acct_createdAt account' = acct_createdAt account /\
       acct_totalValue account' = acct_totalValue account /\
       acct_totalPL account' = acct_totalPL account /\
       acct_totalPLPercent account' = acct_totalPLPercent account).
Proof.
  unfold place_order. cbv zeta.
  destruct (accounts !! verify_token) as [account|] eqn:Hacc.
  - destruct (place_order_on _ _ _ _) as [[a' r]|r|e] eqn:Hon;
      intros [= <- <-].
    + apply place_order_on_record in Hon as (p & _ & _ & _ & _ & H).
      split; [intros u Hu; apply lookup_insert_ne; congruence|].
      split.
      * apply dom_insert_lookup_L. eauto.
      * intros ? [= <-]. exists a'. rewrite lookup_insert_eq. tauto.
    + split; [done|]. split; [done|]. intros ? [= <-]. eauto 10.
    + split; [done|]. split; [done|]. intros ? [= <-]. eauto 10.
  - intros [= <- <-]. split; [done|]. split; [done|]. intros ? H.
    discriminate H.
Qed.

(** X6.  Every filled call of [place_order] appends exactly one record to
    the history [get_orders] returns: the record repeats the ticker, type,
    side and quantity of the order, the filled quantity is the whole
    requested quantity, the filled price and the order id are those of
    the response, and the id is ["order_<n>"] with [n] the length of the
    history after the call. *)
Theorem place_order_appends_record now order (accounts accounts' : Accounts)
    response :
  place_order get_current_price now order accounts
    = (accounts', inl response) ->
  resp_status response = "filled"%string ->
  exists p,
    resp_filledPrice response = Some p /\
    resp_filledQuantity response = Some (order_quantity order) /\
    resp_orderId response
      = ("order_" +:+ pretty (length (get_orders accounts) + 1)%nat)%string /\
    get_orders accounts' =
      get_orders accounts ++
      [ {| rec_orderId := resp_orderId response;
           rec_ticker := order_ticker order;
           rec_type := order_type order;
           rec_side := order_side order;
           rec_quantity := order_quantity order;
           rec_filledPrice := p;
           rec_filledQuantity := order_quantity order;
           rec_status := "filled";
           rec_timestamp := now |} ].
Proof.
  intros (account & Hacc & [[Hret ->] | (account' & Hcont & ->)])
    %place_order_response Hfilled.
  { apply place_order_on_Return, is_rejection_status in Hret.
    rewrite Hret in Hfilled. discriminate Hfilled. }
  apply place_order_on_record in Hcont
    as (p & Hp & Hq & Hid & Horders & _).
  exists p. unfold get_orders. cbv zeta. rewrite Hacc, lookup_insert_eq.
  auto.
Qed.

End History.

(** The second order of the worked example is recorded as ["order_2"]. *)
Lemma place_order_frame_witness :
  exists account',
    ({[ "user_1"%string := sample_sold ]} : Accounts) !! verify_token
      = Some account' /\
    acct_userId account' = acct_userId sample_holding /\
    acct_createdAt account' = acct_createdAt sample_holding /\
    acct_totalValue account' = acct_totalValue sample_holding /\
    acct_totalPL account' = acct_totalPL sample_holding /\
    acct_totalPLPercent account' = acct_totalPLPercent sample_holding.
Proof.
  apply (place_order_frame quote_60 "2024-01-03T00:00:00" (market_sell 10)
           sample_holdings {[ "user_1"%string := sample_sold ]}
           (inl sample_sold_response)).
  - vm_compute. reflexivity.
  - vm_compute. reflexivity.
Defined.

Lemma place_order_appends_record_witness :
  exists p,
    resp_filledPrice sample_sold_response = Some p /\
    resp_filledQuantity sample_sold_response = Some 10 /\
    resp_orderId sample_sold_response = "order_2"%string /\
    get_orders {[ "user_1"%string := sample_sold ]} =
      get_orders sample_holdings ++
      [ {| rec_orderId := "order_2";
           rec_ticker := "XYZ";
           rec_type := "market";
           rec_side := "sell";
           rec_quantity := 10;
           rec_filledPrice := p;
           rec_filledQuantity := 10;
           rec_status := "filled";
           rec_timestamp := "2024-01-03T00:00:00" |} ].
Proof.
  apply (place_order_appends_record quote_60 "2024-01-03T00:00:00"
           (market_sell 10) sample_holdings
           {[ "user_1"%string := sample_sold ]} sample_sold_response).
  - vm_compute. reflexivity.
  - reflexivity.
Defined.

(** ** Order ids *)

Lemma order_id_inj (i j : nat) :
  ("order_" +:+ pretty i)%string = ("order_" +:+ pretty j)%string -> i = j.
Proof.
  intros H. cbn in H. injection H as H. exact (inj pretty _ _ H).
Qed.

Lemma well_numbered_NoDup orders :
  well_numbered orders -> NoDup (rec_orderId <$> orders).
Proof.
  intros Hnum. apply NoDup_alt. intros i j id Hi Hj.
  rewrite list_lookup_fmap in Hi, Hj.
  destruct (orders !! i) as [ri|] eqn:Hri; [|discriminate Hi].
  destruct (orders !! j) as [rj|] eqn:Hrj; [|discriminate Hj].
  injection Hi as Hi. injection Hj as Hj.
  rewrite (Hnum _ _ Hri) in Hi. rewrite (Hnum _ _ Hrj) in Hj.
  assert ((i + 1)%nat = (j + 1)%nat) by (apply order_id_inj; congruence).
  lia.
Qed.

Lemma well_numbered_snoc orders record :
  well_numbered orders ->
  rec_orderId record
    = ("order_" +:+ pretty (length orders + 1)%nat)%string ->
  well_numbered (orders ++ [record]).
Proof.
  intros Hnum Hid i r Hi.
  apply lookup_app_Some in Hi as [Hi | [Hlen Hi]]; [exact (Hnum _ _ Hi)|].
  apply list_lookup_singleton_Some in Hi as [Hzero <-].
  rewrite Hid. do 2 f_equal. lia.
Qed.

Section OrderIds.

Variable get_current_price : string -> Q.

(** The history after a call: as before, or one record longer. *)
Lemma place_order_get_orders now order (accounts accounts' : Accounts) out :
  place_order get_current_price now order accounts = (accounts', out) ->
  get_orders accounts' = get_orders accounts \/
  exists record,
    get_orders accounts' = get_orders accounts ++ [record] /\
    rec_orderId record
      = ("order_" +:+ pretty (length (get_orders accounts) + 1)%nat)%string.
Proof.
  unfold place_order, get_orders. cbv zeta.
  destruct (accounts !! verify_token) as [account|] eqn:Hacc.
  - destruct (place_order_on _ _ _ _) as [[a' r]|r|e] eqn:Hon;
      intros [= <- <-]; rewrite ?Hacc; auto.
    apply place_order_on_record in Hon as (p & _ & _ & Hid & Horders & _).
    right. rewrite lookup_insert_eq. eexists. split; [exact Horders|].
    exact Hid.
  - intros [= <- <-]. rewrite Hacc. auto.
Qed.

(** X7.  Order ids are sequential and unique within an account: if the
    [k]-th record of the history carries the id ["order_<k>"] for every
    [k], as in a new or reset account, then so it is after any call of
    [place_order], and no two records of the history share an id. *)
Theorem order_ids_sequential now order (accounts accounts' : Accounts) out :
  well_numbered (get_orders accounts) ->
  place_order get_current_price now order accounts = (accounts', out) ->
  well_numbered (get_orders accounts') /\
  NoDup (rec_orderId <$> get_orders accounts').
Proof.
  intros Hnum Hplace.
  assert (well_numbered (get_orders accounts')) as Hnum'.
  { apply place_order_get_orders in Hplace
      as [-> | (record & -> & Hid)]; [exact Hnum|].
    apply well_numbered_snoc; assumption. }
  split; [exact Hnum'|]. apply well_numbered_NoDup, Hnum'.
Qed.

End OrderIds.

Lemma order_ids_sequential_witness :
  well_numbered (get_orders {[ "user_1"%string := sample_sold ]}) /\
  NoDup (rec_orderId <$> get_orders {[ "user_1"%string := sample_sold ]}).
Proof.
  apply (order_ids_sequential quote_60 "2024-01-03T00:00:00"
           (market_sell 10) sample_holdings
           {[ "user_1"%string := sample_sold ]}
           (inl sample_sold_response)).
  - intros i record Hi. destruct i as [|i]; [|discriminate Hi].
    vm_compute in Hi. injection Hi as <-. reflexivity.
  - vm_compute. reflexivity.
Defined.

(** ** Invariants of the position ledger *)

(** With a positive market price and a positive limit price the execution
    price is positive, whatever the side. *)
Lemma determine_execution_price_pos order market_price p :
  0 < market_price ->
  (forall limitPrice,
     order_limitPrice order = Some limitPrice -> 0 < limitPrice) ->
  determine_execution_price order market_price = Continue p ->
  0 < p.
Proof.
  intros Hmarket Hlimit. unfold determine_execution_price.
  destruct (String.eqb (order_type order) "market").
  - intros [= <-]. unfold apply_slippage. cbv zeta.
    destruct (String.eqb _ _); rewrite slippage_rate; lra.
  - destruct (order_limitPrice order) as [limitPrice|]; [|discriminate].
    specialize (Hlimit limitPrice eq_refl).
    destruct (_ && _); [intros [= <-]; exact Hlimit|].
    destruct (_ && _); [intros [= <-]; exact Hlimit|discriminate].
Qed.

Section Ledger.

Variable get_current_price : string -> Q.

(** What a filled call has done to cash and positions. *)
Lemma place_order_on_ledger now order account account' response :
  place_order_on get_current_price now order account
    = Continue (account', response) ->
  exists p,
    determine_execution_price order
      (get_current_price (order_ticker order)) = Continue p /\
    resp_filledPrice response = Some p /\
    if String.eqb (order_side order) "buy" then
      order_quantity order * p + COMMISSION_PER_TRADE <= acct_cash account /\
      acct_cash account'
        = acct_cash account
          - (order_quantity order * p + COMMISSION_PER_TRADE) /\
      match find_position (order_ticker order) (acct_positions account) with
      | Some (i, existing) =>
          ~ pos_quantity existing + order_quantity order == 0 /\
          acct_positions account' =
            <[i := set_quantity_avgCostBasis
                     (pos_quantity existing + order_quantity order)
                     ((pos_quantity existing * pos_avgCostBasis existing
                       + order_quantity order * p)
                      / (pos_quantity existing + order_quantity order))
                     existing]> (acct_positions account)
      | None =>
          acct_positions account' =
            acct_positions account
              ++ [new_position (order_ticker order) (order_quantity order) p]
      end
    else
      exists i position,
        find_position (order_ticker order) (acct_positions account)
          = Some (i, position) /\
        order_quantity order <= pos_quantity position /\
        acct_cash account'
          = acct_cash account
            + (order_quantity order * p - COMMISSION_PER_TRADE) /\
        acct_positions account' =
          if Qeq_bool (pos_quantity position - order_quantity order) 0
          then delete i (acct_positions account)
          else <[i := set_quantity
                        (pos_quantity position - order_quantity order)
                        position]> (acct_positions account).
Proof.
  intros (_ & p & a1 & Hprice & Hexec & Hrec)%place_order_on_Continue.
  apply record_order_account in Hrec as (-> & -> & _ & _ & Hfp & _).
  exists p. split; [exact Hprice|]. split; [exact Hfp|].
  destruct (String.eqb _ _).
  - apply execute_buy_Continue in Hexec as (Hle & Hcash & _ & Hpos). auto.
  - apply execute_sell_Continue in Hexec
      as (i & position & Hfind & Hq & Hcash & _ & Hpos). eauto 8.
Qed.

(** The file after a call holds the account as it was, or the account a
    filled call left. *)
Lemma place_order_saved now order (accounts accounts' : Accounts) out
    account :
  accounts !! verify_token = Some account ->
  place_order get_current_price now order accounts = (accounts', out) ->
  accounts' = accounts \/
  exists account' response,
    place_order_on get_current_price now order account
      = Continue (account', response) /\
    accounts' = <[verify_token := account']> accounts /\
    out = inl response.
Proof.
  intros Hacc. unfold place_order. cbv zeta. rewrite Hacc.
  destruct (place_order_on _ _ _ _) as [[a' r]|r|e]; intros [= <- <-];
    eauto 6.
Qed.

(** X8.  The ledger never holds two positions of one ticker: if the
    tickers of the positions of the account are pairwise distinct before
    a call of [place_order], they are so in the account the call leaves. *)
Theorem one_position_per_ticker now order (accounts accounts' : Accounts)
    out account :
  accounts !! verify_token = Some account ->
  NoDup (pos_ticker <$> acct_positions account) ->
  place_order get_current_price now order accounts = (accounts', out) ->
  exists account',
    accounts' !! verify_token = Some account' /\
    NoDup (pos_ticker <$> acct_positions account').
Proof.
  intros Hacc Hnodup Hplace.
  destruct (place_order_saved _ _ _ _ _ _ Hacc Hplace)
    as [-> | (account' & response & Hon & -> & _)]; [eauto|].
  exists account'. rewrite lookup_insert_eq. split; [reflexivity|].
  apply place_order_on_ledger in Hon as (p & _ & _ & Hledger).
  destruct (String.eqb _ _).
  - destruct Hledger as (_ & _ & Hpos).
    destruct (find_position _ _) as [[i existing]|] eqn:Hfind.
    + destruct Hpos as [_ ->]. rewrite list_fmap_insert. cbn.
      apply find_position_Some in Hfind as (Hi & _).
      rewrite list_insert_id; [exact Hnodup|].
      rewrite list_lookup_fmap, Hi. reflexivity.
    + rewrite Hpos, fmap_app. apply NoDup_app.
      split; [exact Hnodup|]. split; [|apply NoDup_singleton].
      intros ticker Hin ->%list_elem_of_singleton.
      apply list_elem_of_fmap in Hin as (position & Hticker & Hin).
      apply find_position_None in Hfind.
      exact (proj1 (Forall_forall _ _) Hfind position Hin (eq_sym Hticker)).
  - destruct Hledger as (i & position & Hfind & _ & _ & ->).
    destruct (Qeq_bool _ 0).
    + rewrite list_fmap_delete.
      eapply sublist_NoDup; [exact Hnodup|apply sublist_delete].
    + rewrite list_fmap_insert. cbn.
      apply find_position_Some in Hfind as (Hi & _).
      rewrite list_insert_id; [exact Hnodup|].
      rewrite list_lookup_fmap, Hi. reflexivity.
Qed.


End Ledger.

(** The worked example: the first buy leaves one positive position. *)
Lemma one_position_per_ticker_witness :
  exists account',
    sample_holdings !! verify_token = Some account' /\
    NoDup (pos_ticker <$> acct_positions account').
Proof.
  apply (one_position_per_ticker quote_50 "2024-01-02T00:00:00"
           (market_buy 10) sample_accounts sample_holdings
           (inl {| resp_orderId := "order_1";
                   resp_status := "filled";
                   resp_filledPrice := Some 50.050;
                   resp_filledQuantity := Some 10;
                   resp_message := "Order filled at $50.05" |})
           sample_account).
  - vm_compute. reflexivity.
  - constructor.
  - vm_compute. reflexivity.
Defined.


(** ** Further properties of the valuation *)

(** Every position of a valued account is the valuation of the position
    at the same place of the original account. *)
Lemma calculate_account_metrics_positions get_current_price account :
  Forall2 (valued_as get_current_price) (acct_positions account)
    (acct_positions (calculate_account_metrics get_current_price account)).
Proof.
  unfold calculate_account_metrics. cbv zeta.
  pose proof (value_positions_spec get_current_price
                (acct_positions account) (acct_cash account)) as [Hpos _].
  destruct (value_positions _ _ _) as [positions total]. exact Hpos.
Qed.

(** The positions the loop writes do not depend on the running total. *)
Lemma value_positions_fst get_current_price positions total :
  (value_positions get_current_price positions total).1
  = (fun position => (value_position get_current_price position).1)
      <$> positions.
Proof.
  revert total. induction positions as [|position rest IH]; intros total;
    [reflexivity|].
  cbn [value_positions].
  destruct (value_position _ position) as [position' market_value] eqn:Hv.
  specialize (IH (total + market_value)).
  destruct (value_positions _ rest _) as [rest' total'].
  cbn [fst] in IH. subst rest'. cbn [fst fmap list_fmap].
  rewrite Hv. reflexivity.
Qed.

Section ValuationTotals.

Variable get_current_price : string -> Q.

(** X13.  A valuation never reads what an earlier valuation wrote:
    valuing an account that was already valued, at the same or at other
    prices, gives what valuing the original account gives.  In
    particular valuing twice at the same prices is valuing once. *)
Theorem calculate_account_metrics_overwrites (earlier : string -> Q)
    account :
  calculate_account_metrics get_current_price
    (calculate_account_metrics earlier account)
  = calculate_account_metrics get_current_price account.
Proof.
  assert (Hloop : forall positions total,
             value_positions get_current_price
               ((fun position => (value_position earlier position).1)
                  <$> positions) total
             = value_positions get_current_price positions total).
  { induction positions as [|position rest IH]; intros total;
      [reflexivity|].
    cbn [fmap list_fmap value_positions].
    change (value_position get_current_price
              (value_position earlier position).1)
      with (value_position get_current_price position).
    destruct (value_position get_current_price position)
      as [position' market_value].
    change (list_fmap _ _ ?f rest) with (f <$> rest).
    rewrite IH. reflexivity. }
  unfold calculate_account_metrics at 1 2. cbv zeta.
  pose proof (value_positions_fst earlier (acct_positions account)
                (acct_cash account)) as Hfst.
  destruct (value_positions earlier _ _) as [positions1 total1].
  cbn [fst] in Hfst. subst positions1.
  cbn [acct_positions acct_cash acct_userId acct_orders acct_createdAt].
  rewrite Hloop. unfold calculate_account_metrics. cbv zeta.
  destruct (value_positions get_current_price _ _) as [positions total].
  reflexivity.
Qed.


End ValuationTotals.


(** ** Sides other than ["buy"] and ["sell"] *)

Section Sides.

Variable get_current_price : string -> Q.

(** X15.  A side that is neither ["buy"] nor ["sell"] is not refused as
    such.  On a market order it is executed as a sell: the call ends as
    the same order with side ["sell"] ends, with the same response and
    the same cash and positions.  On a limit order with an available
    price and a limit price it is always rejected as not favorable. *)
Theorem unknown_side_is_sold now order account :
  order_side order <> "buy"%string ->
  order_side order <> "sell"%string ->
  (order_type order = "market"%string ->
   (forall account' response,
      place_order_on get_current_price now order account
        = Continue (account', response) ->
      exists account'',
        place_order_on get_current_price now (with_side "sell" order)
          account = Continue (account'', response) /\
        acct_cash account'' = acct_cash account' /\
        acct_positions account'' = acct_positions account') /\
   (forall response,
      place_order_on get_current_price now order account
        = Return response ->
      place_order_on get_current_price now (with_side "sell" order) account
        = Return response)) /\
  (order_type order <> "market"%string ->
   ~ get_current_price (order_ticker order) == 0 ->
   forall limitPrice,
     order_limitPrice order = Some limitPrice ->
     place_order_on get_current_price now order account
     = Return
         (rejected "Limit price not favorable for immediate execution")).
Proof.
  intros Hbuy%String.eqb_neq Hsell%String.eqb_neq. split.
  - intros Htype. unfold place_order_on. cbv zeta.
    change (order_ticker (with_side "sell" order)) with (order_ticker order).
    destruct (Qeq_bool _ 0); [split; [discriminate|auto]|].
    rewrite !determine_execution_price_market by exact Htype.
    change (order_side (with_side "sell" order)) with "sell"%string.
    unfold apply_slippage. rewrite Hbuy. cbn -[execute_sell record_order].
    change (execute_sell (with_side "sell" order))
      with (execute_sell order).
    destruct (execute_sell order _ account) as [a1| |];
      cbn -[record_order]; unfold execute_sell.
    + split; [|discriminate]. intros account' response [= <- <-].
      eexists. split; [reflexivity|]. split; reflexivity.
    + split; [discriminate|auto].
    + split; discriminate.
  - intros Htype%String.eqb_neq Hprice limitPrice Hlimit.
    unfold place_order_on, determine_execution_price. cbv zeta.
    rewrite (proj2 (Qeq_bool_false _ _)) by exact Hprice.
    rewrite Htype, Hlimit, Hbuy, Hsell. reflexivity.
Qed.

End Sides.

(** The holder of 10 shares who sends a market order with side ["SELL"]
    in capitals has the 10 shares sold. *)
Lemma unknown_side_is_sold_witness :
  exists account'',
    place_order_on quote_60 "2024-01-03T00:00:00"
      (with_side "sell" (mkOrder "XYZ" "market" "SELL" 10 None))
      sample_holding = Continue (account'', sample_sold_response) /\
    acct_cash account'' = acct_cash sample_sold /\
    acct_positions account'' = [].
Proof.
  destruct (unknown_side_is_sold quote_60 "2024-01-03T00:00:00"
              (mkOrder "XYZ" "market" "SELL" 10 None) sample_holding)
    as [Hmarket _]; [discriminate..|].
  destruct (Hmarket eq_refl) as [Hfilled _].
  destruct (Hfilled
              (record_order "2024-01-03T00:00:00"
                 (mkOrder "XYZ" "market" "SELL" 10 None) 59.940
                 (set_cash_positions 100098.900000 [] sample_holding)).1
              sample_sold_response) as (account'' & Hon & Hcash & Hpos).
  { vm_compute. reflexivity. }
  exists account''. split; [exact Hon|]. split; [exact Hcash|exact Hpos].
Defined.

(** ** Buying and selling back *)

Lemma find_position_append ticker (positions : list Position) position' :
  find_position ticker positions = None ->
  pos_ticker position' = ticker ->
  find_position ticker (positions ++ [position'])
    = Some (length positions, position').
Proof.
  intros Hnone%find_position_None Hticker.
  apply find_position_Some. split; [|split; [exact Hticker|]].
  - rewrite lookup_app_r, Nat.sub_diag by lia. reflexivity.
  - intros j other Hj Hlt. rewrite lookup_app_l in Hj by exact Hlt.
    exact (proj1 (Forall_lookup _ _) Hnone j other Hj).
Qed.

Section RoundTrip.

Variable get_current_price : string -> Q.


End RoundTrip.


(** ** Viewing and resetting the account *)

(** X20.  [get_account] creates the account of the user on first access
    and never changes an account that exists: afterwards the account is
    there, an existing account and the accounts of other users are as
    before, a second call leaves the file as the first left it (so the
    creation timestamp is the one of the first access), and the account
    returned is the valuation of the stored one: the valuation itself is
    not saved. *)
Theorem get_account_creates_once (get_current_price : string -> Q) now
    (accounts : Accounts) :
  let after := (get_account get_current_price now accounts).1 in
  (exists stored,
     after !! verify_token = Some stored /\
     (get_account get_current_price now accounts).2
       = calculate_account_metrics get_current_price stored /\
     (accounts !! verify_token = None ->
      stored = fresh_account verify_token now)) /\
  (forall account,
     accounts !! verify_token = Some account -> after = accounts) /\
  (forall user_id,
     user_id <> verify_token -> after !! user_id = accounts !! user_id) /\
  (forall (later : string -> Q) now',
     (get_account later now' after).1 = after).
Proof.
  unfold get_account. cbv zeta.
  destruct (accounts !! verify_token) as [account|] eqn:Hacc; cbn [fst snd].
  - split.
    { exists account. split; [exact Hacc|]. split; [reflexivity|].
      intros H. congruence. }
    split; [reflexivity|]. split; [reflexivity|].
    intros later now'. rewrite Hacc. reflexivity.
  - split.
    { eexists. split; [apply lookup_insert_eq|]. auto. }
    split; [intros account H; discriminate H|].
    split; [intros u Hu; apply lookup_insert_ne; congruence|].
    intros later now'. rewrite lookup_insert_eq. reflexivity.
Qed.

(** X21.  Order ids start again after a reset: the first order filled
    after [reset_account] is ["order_1"], whatever the history held
    before, and it is then the only record of the history. *)
Theorem first_order_after_reset (get_current_price : string -> Q) now now'
    order (accounts accounts' : Accounts) response :
  place_order get_current_price now' order (reset_account now accounts)
    = (accounts', inl response) ->
  resp_status response = "filled"%string ->
  resp_orderId response = "order_1"%string /\
  length (get_orders accounts') = 1%nat /\
  get_orders (reset_account now accounts) = [].
Proof.
  intros (account & Hacc & [[Hret ->] | (account' & Hcont & ->)])
    %place_order_response Hfilled.
  { apply place_order_on_Return, is_rejection_status in Hret.
    rewrite Hret in Hfilled. discriminate Hfilled. }
  unfold reset_account in Hacc. cbv zeta in Hacc.
  rewrite lookup_insert_eq in Hacc. injection Hacc as <-.
  apply place_order_on_record in Hcont as (p & _ & _ & Hid & Horders & _).
  split; [rewrite Hid; reflexivity|].
  unfold get_orders, reset_account. cbv zeta. rewrite !lookup_insert_eq.
  rewrite Horders. split; reflexivity.
Qed.

Lemma first_order_after_reset_witness :
  resp_orderId
    {| resp_orderId := "order_1";
       resp_status := "filled";
       resp_filledPrice := Some 50.050;
       resp_filledQuantity := Some 10;
       resp_message := "Order filled at $50.05" |} = "order_1"%string /\
  length
    (get_orders
       (place_order quote_50 "2024-02-02T00:00:00" (market_buy 10)
          (reset_account "2024-02-01T00:00:00"
             {[ "user_1"%string := sample_sold ]})).1) = 1%nat /\
  get_orders
    (reset_account "2024-02-01T00:00:00"
       {[ "user_1"%string := sample_sold ]}) = [].
Proof.
  apply (first_order_after_reset quote_50 "2024-02-01T00:00:00"
           "2024-02-02T00:00:00" (market_buy 10)
           {[ "user_1"%string := sample_sold ]}).
  - vm_compute. reflexivity.
  - reflexivity.
Defined.

(** The first view of an empty accounts file creates the account, and a
    later view leaves the file alone. *)
Lemma get_account_creates_once_witness :
  (get_account quote_60 "2024-01-05T00:00:00"
     (get_account quote_50 "2024-01-01T00:00:00" ∅).1).1
  = (get_account quote_50 "2024-01-01T00:00:00" ∅).1.
Proof.
  apply (get_account_creates_once quote_50 "2024-01-01T00:00:00" ∅).
Defined.

(** ** Orders when the price feed is down *)

(** All three attempts without data: the price is 0. *)
Lemma get_current_price_zero feed ticker :
  (forall j p,
     (j < PriceFeed.max_retries)%nat ->
     PriceFeed.try_attempt (feed ticker j) <> PriceFeed.Fetched p) ->
  (PriceFeed.get_current_price feed ticker).1 = 0.
Proof.
  unfold PriceFeed.max_retries. intros Hnone.
  run_attempts feed ticker;
    try (exfalso; eapply (Hnone 0%nat); [lia|eassumption]);
    try (exfalso; eapply (Hnone 1%nat); [lia|eassumption]);
    try (exfalso; eapply (Hnone 2%nat); [lia|eassumption]);
    reflexivity.
Qed.

(** X23.  When the price feed is down, that is, when none of the three
    attempts of [get_current_price] has data for the ticker, every order
    on that ticker is rejected with "Unable to fetch price for <ticker>",
    whatever its type, side, quantity and limit price, and whatever the
    account holds. *)
Theorem feed_down_rejects_order feed now order account :
  (forall j p,
     (j < PriceFeed.max_retries)%nat ->
     PriceFeed.try_attempt (feed (order_ticker order) j)
     <> PriceFeed.Fetched p) ->
  place_order_on (fun ticker => (PriceFeed.get_current_price feed ticker).1)
    now order account
  = Return
      (rejected ("Unable to fetch price for " +:+ order_ticker order)%string).
Proof.
  intros Hdown. unfold place_order_on. cbv zeta.
  rewrite (get_current_price_zero feed _ Hdown). reflexivity.
Qed.

Lemma feed_down_rejects_order_witness :
  place_order_on
    (fun ticker => (PriceFeed.get_current_price PriceFeed.dead_feed ticker).1)
    "2024-01-02T00:00:00" (market_buy 10) sample_account
  = Return (rejected "Unable to fetch price for XYZ").
Proof.
  apply (feed_down_rejects_order PriceFeed.dead_feed "2024-01-02T00:00:00"
           (market_buy 10) sample_account).
  intros j p _. discriminate.
Defined.
